(** * KarjiStoreTracker: javascript-version/server.py

    A shallow embedding of the development server of the JavaScript
    chatbot: the request handler [ChatbotRequestHandler] (static files,
    the POST proxy to the backend, the CORS preflight) and [main].

    The handler inherits from Python's [http.server.SimpleHTTPRequestHandler].
    The inherited methods it relies on ([send_response], [send_header],
    [end_headers], [send_error], [send_head], [do_GET], ...) are embedded
    from CPython's [http/server.py], for a request that [parse_request]
    accepted, whatever its request version (a request of version HTTP/0.9
    gets no status line and no header).  Writes to the client socket and
    to the console are taken to succeed.

    Python [str] values met here (header text, paths, messages) are
    modelled as [string], a sequence of code points below 256 (the request
    is decoded as ISO-8859-1); [bytes] values as [list byte]. *)

From Stdlib Require Import ZArith List Bool Lia.
From Stdlib.Strings Require Import String Ascii Byte.
From Stdlib Require Import DecimalString.
From Stdlib Require DecimalZ.
Import ListNotations.

Local Open Scope string_scope.
Local Open Scope Z_scope.

(** ** Python built-ins used by the handler *)

Module Py.

Definition bytes := list byte.

(** [str.encode('UTF-8')]: a code point below 128 is one byte, one from
    128 to 255 is two. *)
Definition utf8 (c : ascii) : bytes :=
  match c with
  | Ascii b0 b1 b2 b3 b4 b5 b6 true =>
      [byte_of_ascii (Ascii b6 true false false false false true true);
       byte_of_ascii (Ascii b0 b1 b2 b3 b4 b5 false true)]
  | _ => [byte_of_ascii c]
  end.

Fixpoint encode (s : string) : bytes :=
  match s with
  | EmptyString => []
  | String c r => (utf8 c ++ encode r)%list
  end.

(** [str(n)] for an integer. *)
Definition str_int (z : Z) : string := NilZero.string_of_int (Z.to_int z).

(** [str.lower] on one Latin-1 character. *)
Definition lower_char (c : ascii) : ascii :=
  let n := nat_of_ascii c in
  if ((65 <=? n) && (n <=? 90))%nat then ascii_of_nat (n + 32)
  else if ((192 <=? n) && (n <=? 222) && negb (n =? 215))%nat
       then ascii_of_nat (n + 32)
  else c.

Fixpoint lower (s : string) : string :=
  match s with
  | EmptyString => EmptyString
  | String c r => String (lower_char c) (lower r)
  end.

(** [s.endswith("/")]. *)
Fixpoint endswith_slash (s : string) : bool :=
  match s with
  | EmptyString => false
  | String c EmptyString => Ascii.eqb c "/"
  | String _ r => endswith_slash r
  end.

(** [html.escape(s, quote=False)]. *)
Fixpoint html_escape (s : string) : string :=
  match s with
  | EmptyString => EmptyString
  | String c r =>
      (if Ascii.eqb c "&" then "&amp;"
       else if Ascii.eqb c "<" then "&lt;"
       else if Ascii.eqb c ">" then "&gt;"
       else String c EmptyString) ++ html_escape r
  end.

(** *** [int(s)] in base 10

    Surrounding white space is dropped, one sign is allowed, and the
    digits may be grouped by single underscores.  [max_str_digits] is
    the interpreter's limit on the number of digits ([0]: no limit).

    The white space [int] drops is tab to carriage return and the space,
    and the two spaces above 127 (NEL and the no-break space), which it
    first turns into spaces; the separators 28 to 31 are not dropped. *)

Definition isspace (c : ascii) : bool :=
  let n := nat_of_ascii c in
  (((9 <=? n) && (n <=? 13)) || (n =? 32) || (n =? 133) || (n =? 160))%nat.

Fixpoint lstrip (s : string) : string :=
  match s with
  | String c r => if isspace c then lstrip r else s
  | EmptyString => EmptyString
  end.

Fixpoint rstrip (s : string) : string :=
  match s with
  | EmptyString => EmptyString
  | String c r =>
      match rstrip r with
      | EmptyString => if isspace c then EmptyString else String c EmptyString
      | r' => String c r'
      end
  end.

Definition strip (s : string) : string := rstrip (lstrip s).

Definition digit_value (c : ascii) : option Z :=
  let n := nat_of_ascii c in
  if ((48 <=? n) && (n <=? 57))%nat then Some (Z.of_nat (n - 48)) else None.

(** A run of digits; [after_digit] tells whether the previous character
    was a digit (an underscore must sit between two digits).  Returns
    the value and the number of digits read. *)
Fixpoint digits (s : string) (after_digit : bool) (acc : Z) (count : nat)
  : option (Z * nat) :=
  match s with
  | EmptyString => if after_digit then Some (acc, count) else None
  | String c r =>
      match digit_value c with
      | Some d => digits r true (10 * acc + d) (S count)
      | None =>
          if Ascii.eqb c "_" && after_digit then digits r false acc count
          else None
      end
  end.

Definition int_unsigned (max_str_digits : nat) (s : string) : option Z :=
  match s with
  | EmptyString => None
  | String c _ =>
      match digit_value c with
      | None => None
      | Some _ =>
          match digits s false 0 0 with
          | Some (v, count) =>
              if ((0 <? max_str_digits) && (max_str_digits <? count))%nat
              then None else Some v
          | None => None
          end
      end
  end.

Definition int_str (max_str_digits : nat) (s : string) : option Z :=
  match strip s with
  | String "+" r => int_unsigned max_str_digits r
  | String "-" r => option_map Z.opp (int_unsigned max_str_digits r)
  | t => int_unsigned max_str_digits t
  end.

(** *** Exceptions

    The classes that can reach the handler and [main], with their
    direct bases.  [ConnectionError] to [TooManyRedirects] are the
    classes of [requests.exceptions]. *)

Inductive exn_class :=
| BaseException | KeyboardInterrupt | Exception
| TypeError | ValueError | ArithmeticError | OverflowError | MemoryError
| OSError
| RequestException | HTTPError | ConnectionError | ProxyError | SSLError
| Timeout | ConnectTimeout | ReadTimeout
| ChunkedEncodingError | TooManyRedirects.

Definition bases (c : exn_class) : list exn_class :=
  match c with
  | BaseException => []
  | KeyboardInterrupt | Exception => [BaseException]
  | TypeError | ValueError | ArithmeticError | MemoryError | OSError =>
      [Exception]
  | OverflowError => [ArithmeticError]
  | RequestException => [OSError]
  | HTTPError | ConnectionError | Timeout
  | ChunkedEncodingError | TooManyRedirects => [RequestException]
  | ProxyError | SSLError => [ConnectionError]
  | ConnectTimeout => [ConnectionError; Timeout]
  | ReadTimeout => [Timeout]
  end.

Definition class_eqb (c d : exn_class) : bool :=
  match c, d with
  | BaseException, BaseException | KeyboardInterrupt, KeyboardInterrupt
  | Exception, Exception | TypeError, TypeError | ValueError, ValueError
  | ArithmeticError, ArithmeticError | OverflowError, OverflowError
  | MemoryError, MemoryError | OSError, OSError
  | RequestException, RequestException | HTTPError, HTTPError
  | ConnectionError, ConnectionError | ProxyError, ProxyError
  | SSLError, SSLError | Timeout, Timeout | ConnectTimeout, ConnectTimeout
  | ReadTimeout, ReadTimeout | ChunkedEncodingError, ChunkedEncodingError
  | TooManyRedirects, TooManyRedirects => true
  | _, _ => false
  end.

(** [issubclass(c, d)], following [bases] to the given depth. *)
Fixpoint issubclass_upto (depth : nat) (c d : exn_class) : bool :=
  class_eqb c d ||
  match depth with
  | O => false
  | S k => existsb (fun b => issubclass_upto k b d) (bases c)
  end.

Definition issubclass : exn_class -> exn_class -> bool := issubclass_upto 6.

(** An exception object: its class, [e.errno] where it has one, and
    [str(e)]. *)
Record exn := mkExn {
  exn_class_of : exn_class;
  errno : option Z;
  str : string
}.

Definition isinstance (e : exn) (c : exn_class) : bool :=
  issubclass (exn_class_of e) c.

End Py.

Import Py.

(** ** Effects: a state and exception monad

    A method of the handler runs on the mutable state below and either
    returns or raises; what it did to the state before raising stays
    done, as in Python. *)

(** A line of the headers buffer. *)
Inductive hline :=
| StatusLine (version : string) (code : Z) (message : string)
| HeaderLine (keyword value : string)
| BlankLine.

(** What was written to the client: a flushed headers buffer or bytes. *)
Inductive wire :=
| Head (lines : list hline)
| Data (b : bytes).

(** The arguments of one [requests.post] call. *)
Record post_call := mkPost {
  url : string;
  data : bytes;
  post_headers : list (string * string);
  timeout : Z
}.

(** The fields of a [requests.Response] the handler can read. *)
Record upstream_response := mkUpstream {
  status_code : Z;
  upstream_headers : list (string * string);
  content : bytes
}.

Record state := mkState {
  headers_buffer : list hline;   (* self._headers_buffer *)
  wfile : list wire;             (* written to the client, in order *)
  rfile : bytes;                 (* what arrives after the headers and is
                                    not read yet *)
  close_connection : bool;
  stdout : list string;          (* print *)
  stderr : list string;          (* log_message *)
  posted : list post_call        (* calls made to the backend, in order *)
}.

Inductive outcome (A : Type) :=
| Returns (a : A)
| Raises (e : exn).
Arguments Returns {A} a.
Arguments Raises {A} e.

Definition M (A : Type) : Type := state -> outcome A * state.

Definition ret {A} (a : A) : M A := fun s => (Returns a, s).

Definition bind {A B} (m : M A) (k : A -> M B) : M B :=
  fun s =>
    match m s with
    | (Returns a, s') => k a s'
    | (Raises e, s') => (Raises e, s')
    end.

Definition raise {A} (e : exn) : M A := fun s => (Raises e, s).

Definition modify (f : state -> state) : M unit := fun s => (Returns tt, f s).

Notation "x <- m ;; k" := (bind m (fun x => k))
  (at level 61, m at next level, right associativity).
Notation "m ;; k" := (bind m (fun _ => k))
  (at level 61, right associativity).

(** [try: body  except C1: h1  except C2 as e: h2 ...]: the first clause
    whose class the exception is an instance of handles it. *)
Fixpoint find_clause {A} (e : exn) (clauses : list (exn_class * (exn -> M A)))
  : option (exn -> M A) :=
  match clauses with
  | [] => None
  | (c, h) :: rest => if isinstance e c then Some h else find_clause e rest
  end.

Definition try_except {A} (body : M A)
    (clauses : list (exn_class * (exn -> M A))) : M A :=
  fun s =>
    match body s with
    | (Returns a, s') => (Returns a, s')
    | (Raises e, s') =>
        match find_clause e clauses with
        | Some h => h e s'
        | None => (Raises e, s')
        end
    end.

Definition set_headers_buffer (b : list hline) (s : state) : state :=
  mkState b (wfile s) (rfile s) (close_connection s) (stdout s) (stderr s)
          (posted s).
Definition set_wfile (w : list wire) (s : state) : state :=
  mkState (headers_buffer s) w (rfile s) (close_connection s) (stdout s)
          (stderr s) (posted s).
Definition set_rfile (r : bytes) (s : state) : state :=
  mkState (headers_buffer s) (wfile s) r (close_connection s) (stdout s)
          (stderr s) (posted s).
Definition set_close_connection (c : bool) (s : state) : state :=
  mkState (headers_buffer s) (wfile s) (rfile s) c (stdout s) (stderr s)
          (posted s).
Definition set_stdout (o : list string) (s : state) : state :=
  mkState (headers_buffer s) (wfile s) (rfile s) (close_connection s) o
          (stderr s) (posted s).
Definition set_stderr (o : list string) (s : state) : state :=
  mkState (headers_buffer s) (wfile s) (rfile s) (close_connection s)
          (stdout s) o (posted s).
Definition set_posted (p : list post_call) (s : state) : state :=
  mkState (headers_buffer s) (wfile s) (rfile s) (close_connection s)
          (stdout s) (stderr s) p.

(** [print(line)]. *)
Definition print (line : string) : M unit :=
  modify (fun s => set_stdout (stdout s ++ [line]) s).

(** [self.wfile.write(b)]. *)
Definition wfile_write (b : bytes) : M unit :=
  modify (fun s => set_wfile (wfile s ++ [Data b]) s).

(** ** The request and what surrounds the server *)

(** The attributes [parse_request] sets on the handler.  The request
    version is the third word of the request line, and [HTTP/0.9] when
    the line has two words. *)
Record request := mkRequest {
  command : string;
  path : string;
  request_version : string;
  requestline : string;
  headers : list (string * string)
}.

(** [self.headers[name]] and [name in self.headers]: header names compare
    without case, the first field of that name is returned, a missing one
    gives [None]. *)
Module Message.

Fixpoint get (name : string) (hs : list (string * string)) : option string :=
  match hs with
  | [] => None
  | (k, v) :: rest =>
      if String.eqb (lower k) (lower name) then Some v else get name rest
  end.

Definition contains (name : string) (hs : list (string * string)) : bool :=
  existsb (fun kv => String.eqb (lower (fst kv)) (lower name)) hs.

End Message.

Record file := mkFile {
  file_content : bytes;
  st_mtime : Z;                  (* whole seconds *)
  openable : bool                (* [open(path, 'rb')] succeeds *)
}.

Inductive node :=
| RegularFile (f : file)
| Directory.

(** The five parts of [urllib.parse.urlsplit]. *)
Record url_parts := mkParts {
  url_scheme : string;
  url_netloc : string;
  url_path : string;
  url_query : string;
  url_fragment : string
}.

(** Everything the handler reads from outside: the interpreter's limits
    and wordings, the memory and the client's end of the connection, the
    clock and tables of [http.server], the backend as [requests.post]
    answers for it, the file system under the working directory, and the
    helpers of the standard library that are taken as given. *)
Record environment := mkEnv {
  int_max_str_digits : nat;
  int_error_text : option string -> string;    (* [str(e)] of the error [int]
                                                  raises on this argument
                                                  ([None]: on [None]) *)
  repr : string -> string;                     (* [repr] of a [str] *)
  sys_maxsize : Z;
  allocation : Z -> option exn;                (* a [bytes] object of that
                                                  size: [None] when memory is
                                                  found, else the
                                                  [OverflowError] or
                                                  [MemoryError] raised *)
  end_of_stream : option exn;                  (* how a read that waits for
                                                  the client ends: [None]
                                                  when the client closes its
                                                  side, else the error of the
                                                  socket *)
  responses : Z -> option (string * string);   (* code -> short, long *)
  version_string : string;
  date_time_string : option Z -> string;
  requests_post : post_call -> outcome upstream_response;
  lookup : string -> option node;              (* the file system *)
  translate_path : string -> string;
  guess_type : string -> string;
  urlsplit : string -> url_parts;
  urlunsplit : url_parts -> string;
  listing : string -> string -> option bytes;  (* the encoded listing page,
                                                  [None]: listdir fails *)
  getfilesystemencoding : string;
  parsedate_utc : string -> option Z           (* If-Modified-Since as a UTC
                                                  time; [None]: ill-formed
                                                  or another time zone *)
}.

(** ** [http.server]: the inherited methods *)

Definition dquote : string := String (ascii_of_nat 34) EmptyString.
Definition nl : string := String (ascii_of_nat 10) EmptyString.

(** [DEFAULT_ERROR_MESSAGE % {code, message, explain}]. *)
Definition error_message_format (code : Z) (message explain : string) : string :=
  "<!DOCTYPE HTML>" ++ nl ++
  "<html lang=" ++ dquote ++ "en" ++ dquote ++ ">" ++ nl ++
  "    <head>" ++ nl ++
  "        <meta charset=" ++ dquote ++ "utf-8" ++ dquote ++ ">" ++ nl ++
  "        <title>Error response</title>" ++ nl ++
  "    </head>" ++ nl ++
  "    <body>" ++ nl ++
  "        <h1>Error response</h1>" ++ nl ++
  "        <p>Error code: " ++ str_int code ++ "</p>" ++ nl ++
  "        <p>Message: " ++ message ++ ".</p>" ++ nl ++
  "        <p>Error code explanation: " ++ str_int code ++ " - " ++ explain
    ++ ".</p>" ++ nl ++
  "    </body>" ++ nl ++
  "</html>" ++ nl.

Definition error_content_type : string := "text/html;charset=utf-8".
Definition protocol_version : string := "HTTP/1.0".

(** [os.path.join(a, b)] for a relative [b]. *)
Definition path_join (a b : string) : string :=
  if String.eqb a "" || endswith_slash a then a ++ b else a ++ "/" ++ b.

Module BaseHandler.
Section Methods.

Variable env : environment.
Variable req : request.
(** [self.end_headers]: the call is dispatched on the handler's class,
    so the inherited methods reach the subclass's override. *)
Variable self_end_headers : M unit.

(** [log_message]: the formatted message goes to stderr (the client
    address and the time stamp that precede it are left out). *)
Definition log_message (message : string) : M unit :=
  modify (fun s => set_stderr (stderr s ++ [message])%list s).

Definition log_request (code : Z) : M unit :=
  log_message (dquote ++ requestline req ++ dquote ++ " " ++ str_int code
               ++ " -").

Definition log_error (code : Z) (message : string) : M unit :=
  log_message ("code " ++ str_int code ++ ", message " ++ message).

(** [self.request_version != 'HTTP/0.9']: the guard under which the
    methods below write a status line or a header. *)
Definition has_headers : bool :=
  negb (String.eqb (request_version req) "HTTP/0.9").

Definition send_response_only (code : Z) (message : option string) : M unit :=
  if has_headers then
    let message :=
      match message with
      | Some m => m
      | None =>
          match responses env code with
          | Some (shortmsg, _) => shortmsg
          | None => ""
          end
      end in
    modify (fun s =>
      set_headers_buffer
        (headers_buffer s ++ [StatusLine protocol_version code message])%list s)
  else ret tt.

Definition send_header (keyword value : string) : M unit :=
  (if has_headers then
     modify (fun s =>
       set_headers_buffer
         (headers_buffer s ++ [HeaderLine keyword value])%list s)
   else ret tt) ;;
  if String.eqb (lower keyword) "connection" then
    if String.eqb (lower value) "close" then
      modify (set_close_connection true)
    else if String.eqb (lower value) "keep-alive" then
      modify (set_close_connection false)
    else ret tt
  else ret tt.

Definition flush_headers : M unit :=
  modify (fun s =>
    set_headers_buffer [] (set_wfile (wfile s ++ [Head (headers_buffer s)])%list s)).

(** [BaseHTTPRequestHandler.end_headers]. *)
Definition end_headers : M unit :=
  if has_headers then
    modify (fun s =>
      set_headers_buffer (headers_buffer s ++ [BlankLine])%list s) ;;
    flush_headers
  else ret tt.

Definition send_response (code : Z) (message : option string) : M unit :=
  log_request code ;;
  send_response_only code message ;;
  send_header "Server" (version_string env) ;;
  send_header "Date" (date_time_string env None).

(** [self.responses[code]], with the fallback of [send_error]. *)
Definition short_long (code : Z) : string * string :=
  match responses env code with
  | Some sl => sl
  | None => ("???", "???")
  end.

(** The body of an error reply, [None] for the codes that carry none. *)
Definition error_body (code : Z) (message explain : string) : option bytes :=
  if (200 <=? code) && negb ((code =? 204) || (code =? 205) || (code =? 304))
  then Some (encode (error_message_format code (html_escape message)
                                          (html_escape explain)))
  else None.

Definition send_error (code : Z) (message : option string) : M unit :=
  let shortmsg := fst (short_long code) in
  let longmsg := snd (short_long code) in
  let message := match message with Some m => m | None => shortmsg end in
  let explain := longmsg in
  log_error code message ;;
  send_response code (Some message) ;;
  send_header "Connection" "close" ;;
  let body := error_body code message explain in
  match body with
  | Some b =>
      send_header "Content-Type" error_content_type ;;
      send_header "Content-Length" (str_int (Z.of_nat (List.length b)))
  | None => ret tt
  end ;;
  self_end_headers ;;
  match body with
  | Some ((_ :: _) as b) =>
      if String.eqb (command req) "HEAD" then ret tt else wfile_write b
  | _ => ret tt
  end.

(** *** [SimpleHTTPRequestHandler] *)

Definition isdir (p : string) : bool :=
  match lookup env p with Some Directory => true | _ => false end.

Definition isfile (p : string) : bool :=
  match lookup env p with Some (RegularFile _) => true | _ => false end.

(** [list_directory]: returns the page to copy, if any. *)
Definition list_directory (p : string) : M (option bytes) :=
  match listing env p (path req) with
  | None =>
      send_error 404 (Some "No permission to list directory") ;;
      ret None
  | Some encoded =>
      send_response 200 None ;;
      send_header "Content-type"
        ("text/html; charset=" ++ getfilesystemencoding env) ;;
      send_header "Content-Length" (str_int (Z.of_nat (List.length encoded))) ;;
      self_end_headers ;;
      ret (Some encoded)
  end.

(** The browser's copy is fresh: [If-Modified-Since] is present without
    [If-None-Match], it parses to a UTC time, and the file is not newer. *)
Definition not_modified (f : file) : bool :=
  Message.contains "If-Modified-Since" (headers req)
  && negb (Message.contains "If-None-Match" (headers req))
  && match Message.get "If-Modified-Since" (headers req) with
     | Some v =>
         match parsedate_utc env v with
         | Some ims => st_mtime f <=? ims
         | None => false
         end
     | None => false
     end.

(** Opens the file at [p] and sends its headers; returns its bytes, or
    [None] when the response is complete.  [open] fails on what is not
    there, on a directory, and on a file the server may not read. *)
Definition send_file_head (p : string) : M (option bytes) :=
  let ctype := guess_type env p in
  if endswith_slash p then
    send_error 404 (Some "File not found") ;; ret None
  else
    match lookup env p with
    | Some (RegularFile f) =>
        if negb (openable f) then
          send_error 404 (Some "File not found") ;; ret None
        else if not_modified f then
          send_response 304 None ;;
          self_end_headers ;;
          ret None
        else
          send_response 200 None ;;
          send_header "Content-type" ctype ;;
          send_header "Content-Length"
            (str_int (Z.of_nat (List.length (file_content f)))) ;;
          send_header "Last-Modified"
            (date_time_string env (Some (st_mtime f))) ;;
          self_end_headers ;;
          ret (Some (file_content f))
    | _ =>
        send_error 404 (Some "File not found") ;; ret None
    end.

Definition send_head : M (option bytes) :=
  let p := translate_path env (path req) in
  if isdir p then
    let parts := urlsplit env (path req) in
    if negb (endswith_slash (url_path parts)) then
      send_response 301 None ;;
      send_header "Location"
        (urlunsplit env
           (mkParts (url_scheme parts) (url_netloc parts)
                    (url_path parts ++ "/") (url_query parts)
                    (url_fragment parts))) ;;
      send_header "Content-Length" "0" ;;
      self_end_headers ;;
      ret None
    else if isfile (path_join p "index.html") then
      send_file_head (path_join p "index.html")
    else if isfile (path_join p "index.htm") then
      send_file_head (path_join p "index.htm")
    else list_directory p
  else send_file_head p.

Definition do_GET : M unit :=
  f <- send_head ;;
  match f with
  | Some b => wfile_write b
  | None => ret tt
  end.

Definition do_HEAD : M unit :=
  _ <- send_head ;; ret tt.

End Methods.
End BaseHandler.

(** ** [server.py] *)

Definition PORT : Z := 8080.
Definition BACKEND_URL : string := "http://localhost:5000".

(** The number of bytes [read(n)] takes of those that arrive. *)
Definition read_length (n : Z) (sent : bytes) : nat :=
  if n =? -1 then List.length sent else Z.to_nat n.

Module ChatbotRequestHandler.
Section Methods.

Variable env : environment.
Variable req : request.

(** [end_headers]: the override, with [super().end_headers()]. *)
Definition end_headers : M unit :=
  BaseHandler.send_header req "Access-Control-Allow-Origin" "*" ;;
  BaseHandler.end_headers req.

Definition send_header := BaseHandler.send_header req.
Definition send_response := BaseHandler.send_response env req.
Definition send_error := BaseHandler.send_error env req end_headers.

(** [int(self.headers['Content-Length'])]: a [TypeError] when the field
    is missing, a [ValueError] when its value is no integer or has too
    many digits. *)
Definition int_ (v : option string) : M Z :=
  match v with
  | None => raise (mkExn TypeError None (int_error_text env None))
  | Some s =>
      match int_str (int_max_str_digits env) s with
      | Some n => ret n
      | None => raise (mkExn ValueError None (int_error_text env (Some s)))
      end
  end.

(** [self.rfile.read(n)] on a connection on which [arrived] comes in.
    With as many bytes there, the first [n] are returned.  Otherwise
    ([n] is [-1], or more than arrives) the reader finds room for [n]
    bytes and waits for the client: it returns what came when the client
    closes its side, and raises when memory is short or the socket
    fails.  (With a client that neither sends the bytes nor closes, the
    handler stays in [read]: such a run does not end, and is no run of
    this embedding.) *)
Definition read_error (n : Z) (arrived : bytes) : option exn :=
  if (sys_maxsize env <? n) || (n <? - sys_maxsize env - 1) then
    Some (mkExn OverflowError None
            "cannot fit 'int' into an index-sized integer")
  else if n <? -1 then
    Some (mkExn ValueError None "read length must be non-negative or -1")
  else if (0 <=? n) && (n <=? Z.of_nat (List.length arrived)) then None
  else
    match (if n =? -1 then None else allocation env n) with
    | Some e => Some e
    | None => end_of_stream env
    end.

Definition rfile_read (n : Z) : M bytes :=
  fun s =>
    match read_error n (rfile s) with
    | Some e => (Raises e, s)
    | None =>
        (Returns (firstn (read_length n (rfile s)) (rfile s)),
         set_rfile (skipn (read_length n (rfile s)) (rfile s)) s)
    end.

(** [requests.post(url, data=..., headers=..., timeout=...)]. *)
Definition requests_post_ (u : string) (d : bytes)
    (h : list (string * string)) (t : Z) : M upstream_response :=
  fun s =>
    let c := mkPost u d h t in
    (requests_post env c, set_posted (posted s ++ [c])%list s).

Definition proxy_to_backend : M unit :=
  try_except
    (content_length <- int_ (Message.get "Content-Length" (headers req)) ;;
     post_data <- rfile_read content_length ;;
     response <- requests_post_ (BACKEND_URL ++ "/api/track-order")
                   post_data [("Content-Type", "application/json")] 10 ;;
     send_response (status_code response) None ;;
     send_header "Content-Type" "application/json" ;;
     send_header "Access-Control-Allow-Origin" "*" ;;
     send_header "Access-Control-Allow-Methods" "POST, GET, OPTIONS" ;;
     send_header "Access-Control-Allow-Headers" "Content-Type" ;;
     end_headers ;;
     wfile_write (content response))
    [ (ConnectionError,
        fun _ => send_error 503 (Some "Backend service unavailable"));
      (Exception,
        fun e =>
          print ("Proxy error: " ++ str e) ;;
          send_error 500 (Some "Internal server error")) ].

Definition do_POST : M unit :=
  if String.eqb (path req) "/api/track-order" then proxy_to_backend
  else send_error 404 (Some "API endpoint not found").

Definition do_OPTIONS : M unit :=
  send_response 200 None ;;
  send_header "Access-Control-Allow-Origin" "*" ;;
  send_header "Access-Control-Allow-Methods" "POST, GET, OPTIONS" ;;
  send_header "Access-Control-Allow-Headers" "Content-Type" ;;
  end_headers.

Definition do_GET := BaseHandler.do_GET env req end_headers.
Definition do_HEAD := BaseHandler.do_HEAD env req end_headers.

(** The dispatch of [handle_one_request] on ['do_' + self.command]. *)
Definition handle_one_request : M unit :=
  if String.eqb (command req) "GET" then do_GET
  else if String.eqb (command req) "HEAD" then do_HEAD
  else if String.eqb (command req) "POST" then do_POST
  else if String.eqb (command req) "OPTIONS" then do_OPTIONS
  else send_error 501
         (Some ("Unsupported method (" ++ repr env (command req) ++ ")")).

End Methods.
End ChatbotRequestHandler.

(** ** One request, from the client's side *)

Record response := mkResponse {
  status : Z;
  reason : string;
  response_headers : list (string * string);
  body : bytes
}.

Fixpoint header_fields (ls : list hline) : list (string * string) :=
  match ls with
  | [] => []
  | HeaderLine k v :: rest => (k, v) :: header_fields rest
  | _ :: rest => header_fields rest
  end.

(** The bytes after the head; a second head is not a body. *)
Fixpoint body_of (w : list wire) : option bytes :=
  match w with
  | [] => Some []
  | Data b :: rest => option_map (fun r => b ++ r)%list (body_of rest)
  | Head _ :: _ => None
  end.

(** What the client reads: a status line, header fields, then the body. *)
Definition response_of (w : list wire) : option response :=
  match w with
  | Head (StatusLine _ code message :: ls) :: rest =>
      option_map (mkResponse code message (header_fields ls)) (body_of rest)
  | _ => None
  end.

(** A handler created for a connection on which [sent] follows the
    request's headers. *)
Definition fresh (sent : bytes) : state :=
  mkState [] [] sent true [] [] [].

Definition handle (env : environment) (req : request) (sent : bytes)
  : outcome unit * state :=
  ChatbotRequestHandler.handle_one_request env req (fresh sent).

Definition serve (env : environment) (req : request) (sent : bytes)
  : option response :=
  response_of (wfile (snd (handle env req sent))).

(** ** [main] *)

(** How the start of the process goes: [os.chdir], the construction of
    the [TCPServer] (which binds the port), and the exception that ends
    [serve_forever], which does not return otherwise. *)
Record startup := mkStartup {
  chdir : option exn;
  tcp_server : option exn;
  serve_forever : exn
}.

Definition may_raise (o : option exn) : M unit :=
  match o with
  | None => ret tt
  | Some e => raise e
  end.

Definition main (w : startup) : M unit :=
  may_raise (chdir w) ;;
  try_except
    (may_raise (tcp_server w) ;;
     print "🚀 JavaScript Chatbot Server running at:" ;;
     print ("   http://localhost:" ++ str_int PORT) ;;
     print ("   http://127.0.0.1:" ++ str_int PORT) ;;
     print (nl ++ "📋 Demo credentials:") ;;
     print "   john.doe@example.com / ORD-2024-001" ;;
     print "   jane.smith@company.com / ORD-2024-002" ;;
     print (nl ++ "🔗 Backend API: " ++ BACKEND_URL) ;;
     print ("🛑 Press Ctrl+C to stop the server" ++ nl) ;;
     raise (serve_forever w))
    [ (KeyboardInterrupt, fun _ => print (nl ++ "🛑 Server stopped."));
      (OSError,
        fun e =>
          if match errno e with Some n => n =? 48 | None => false end then
            print ("❌ Port " ++ str_int PORT
                   ++ " is already in use. Try a different port.")
          else print ("❌ Server error: " ++ str e)) ].

(** The status the interpreter exits with after [main()]: 0 when it
    returns, 1 when an exception escapes it. *)
Definition exit_status (o : outcome unit) : Z :=
  match o with
  | Returns _ => 0
  | Raises _ => 1
  end.

Definition run_main (w : startup) : Z * list string :=
  let '(o, s) := main w (fresh []) in (exit_status o, stdout s).

(** ** A concrete setting

    One file [javascript-version/index.html], last changed on
    1 January 2024, served by CPython 3.11; the backend is left open. *)

Module Demo.

Definition responses (code : Z) : option (string * string) :=
  if code =? 200 then Some ("OK", "Request fulfilled, document follows")
  else if code =? 301 then
    Some ("Moved Permanently", "Object moved permanently -- see URI list")
  else if code =? 304 then
    Some ("Not Modified", "Document has not changed since given time")
  else if code =? 404 then Some ("Not Found", "Nothing matches the given URI")
  else if code =? 500 then
    Some ("Internal Server Error", "Server got itself in trouble")
  else if code =? 501 then
    Some ("Not Implemented", "Server does not support this operation")
  else if code =? 503 then
    Some ("Service Unavailable",
          "The server cannot process the request due to a high load")
  else None.

Definition index_html : file :=
  mkFile (encode "<!DOCTYPE html><title>Chatbot</title>") 1704067200 true.

Definition lookup (p : string) : option node :=
  if String.eqb p "javascript-version/" then Some Directory
  else if String.eqb p "javascript-version/index.html"
  then Some (RegularFile index_html)
  else None.

(** Enough of [translate_path] for plain paths: no query, no escapes,
    no dot segments. *)
Definition translate_path (p : string) : string := "javascript-version" ++ p.

Definition date_time_string (t : option Z) : string :=
  match t with
  | None => "Tue, 03 Nov 2026 12:00:00 GMT"
  | Some _ => "Mon, 01 Jan 2024 00:00:00 GMT"
  end.

(** The one date the requests below carry. *)
Definition parsedate_utc (v : string) : option Z :=
  if String.eqb v "Sat, 01 Jan 2028 00:00:00 GMT" then Some 1830297600
  else None.

(** [repr] of a [str] of code points below 256: in single quotes, or in
    double quotes when the text has a single quote and no double one; the
    quote, the backslash and what does not print are escaped. *)
Definition hex_digit (n : nat) : ascii :=
  ascii_of_nat (if (n <? 10)%nat then 48 + n else 87 + n).

Definition backslash : ascii := ascii_of_nat 92.

Definition repr_char (quote c : ascii) : string :=
  let n := nat_of_ascii c in
  if Ascii.eqb c quote || Ascii.eqb c backslash then
    String backslash (String c EmptyString)
  else if (n =? 9)%nat then String backslash "t"
  else if (n =? 10)%nat then String backslash "n"
  else if (n =? 13)%nat then String backslash "r"
  else if ((n <? 32) || (n =? 127) || ((128 <=? n) && (n <=? 160))
           || (n =? 173))%nat then
    String backslash
      (String "x" (String (hex_digit (n / 16))
                     (String (hex_digit (n mod 16)) EmptyString)))
  else String c EmptyString.

Fixpoint repr_chars (quote : ascii) (s : string) : string :=
  match s with
  | EmptyString => EmptyString
  | String c r => repr_char quote c ++ repr_chars quote r
  end.

Fixpoint has_char (c : ascii) (s : string) : bool :=
  match s with
  | EmptyString => false
  | String d r => Ascii.eqb c d || has_char c r
  end.

Definition repr (s : string) : string :=
  let quote :=
    if has_char "'" s && negb (has_char (ascii_of_nat 34) s)
    then ascii_of_nat 34 else "'"%char in
  String quote (repr_chars quote s ++ String quote EmptyString).

(** The wording of [int]'s errors in CPython 3.11, for a value of fewer
    than 200 characters and within the limit on digits. *)
Definition int_error_text (v : option string) : string :=
  match v with
  | None =>
      "int() argument must be a string, a bytes-like object or a real number, not 'NoneType'"
  | Some s => "invalid literal for int() with base 10: " ++ repr s
  end.

(** A gigabyte can be had, more cannot; a size within 33 of
    [sys.maxsize] is refused before memory is asked for. *)
Definition allocation (n : Z) : option exn :=
  if n <=? 2 ^ 30 then None
  else if 2 ^ 63 - 1 - 33 <? n then
    Some (mkExn OverflowError None "byte string is too large")
  else Some (mkExn MemoryError None "").

(** URLs that are a plain path: no scheme, host, query or fragment. *)
Definition urlsplit (u : string) : url_parts := mkParts "" "" u "" "".
Definition urlunsplit (parts : url_parts) : string := url_path parts.

(** The client closes its side once its request is sent. *)
Definition env (backend : post_call -> outcome upstream_response)
  : environment :=
  mkEnv 4300 int_error_text repr (2 ^ 63 - 1) allocation None
        responses "SimpleHTTP/0.6 Python/3.11.2"
        date_time_string backend lookup translate_path
        (fun _ => "text/html") urlsplit urlunsplit
        (fun _ _ => None) "utf-8" parsedate_utc.

Definition backend_down (c : post_call) : outcome upstream_response :=
  Raises (mkExn ConnectionError None "Connection refused").

Definition post (p : string) (hs : list (string * string)) : request :=
  mkRequest "POST" p "HTTP/1.1" ("POST " ++ p ++ " HTTP/1.1") hs.

Definition get (p : string) (hs : list (string * string)) : request :=
  mkRequest "GET" p "HTTP/1.1" ("GET " ++ p ++ " HTTP/1.1") hs.

Definition options (p : string) : request :=
  mkRequest "OPTIONS" p "HTTP/1.1" ("OPTIONS " ++ p ++ " HTTP/1.1") [].

(** The same request sent as HTTP/0.9: [parse_request] accepts the
    version in a request line of three words, with any method. *)
Definition http09 (r : request) : request :=
  mkRequest (command r) (path r) "HTTP/0.9"
            (command r ++ " " ++ path r ++ " HTTP/0.9") (headers r).


(** A request body, two replies of the backend, and ways for the call to
    the backend or the start of the server to fail. *)
Definition ok_body : bytes := encode ("{" ++ dquote ++ "ok" ++ dquote ++ ":true}").
Definition order : bytes := encode "{}".

Definition backend_ok (c : post_call) : outcome upstream_response :=
  Returns (mkUpstream 200 [("Content-Type", "application/json")] ok_body).

Definition backend_html (c : post_call) : outcome upstream_response :=
  Returns (mkUpstream 200 [("Content-Type", "text/html")] (encode "<p>ok</p>")).


Definition read_timeout : exn :=
  mkExn ReadTimeout None
    "HTTPConnectionPool(host='localhost', port=5000): Read timed out. (read timeout=10)".

Definition backend_raises (e : exn) (c : post_call) : outcome upstream_response :=
  Raises e.

Definition track_order (hs : list (string * string)) : request :=
  post "/api/track-order" hs.

Definition addr_in_use (n : Z) : exn :=
  mkExn OSError (Some n) ("[Errno " ++ str_int n ++ "] Address already in use").

End Demo.

(** The site of [Demo] with a directory [assets] that has no index. *)
Module Site.

Definition assets_page : bytes :=
  encode "<!DOCTYPE HTML><title>Directory listing for /assets/</title>".

Definition lookup (p : string) : option node :=
  if String.eqb p "javascript-version/assets" then Some Directory
  else if String.eqb p "javascript-version/assets/" then Some Directory
  else Demo.lookup p.

Definition listing (p q : string) : option bytes :=
  if String.eqb p "javascript-version/assets/" then Some assets_page
  else None.

Definition env : environment :=
  mkEnv 4300 Demo.int_error_text Demo.repr (2 ^ 63 - 1) Demo.allocation None
        Demo.responses "SimpleHTTP/0.6 Python/3.11.2"
        Demo.date_time_string Demo.backend_ok lookup Demo.translate_path
        (fun _ => "text/html") Demo.urlsplit Demo.urlunsplit
        listing "utf-8" Demo.parsedate_utc.

Definition put (p : string) : request :=
  mkRequest "PUT" p "HTTP/1.1" ("PUT " ++ p ++ " HTTP/1.1") [].


End Site.


(** * Properties *)

(** ** The terms of the statements *)

Definition cors_origin : string * string :=
  ("Access-Control-Allow-Origin", "*").
Definition cors_methods : string * string :=
  ("Access-Control-Allow-Methods", "POST, GET, OPTIONS").
Definition cors_allow_headers : string * string :=
  ("Access-Control-Allow-Headers", "Content-Type").
Definition json_content_type : string * string :=
  ("Content-Type", "application/json").

(** The reason phrase of a status line sent without a message. *)
Definition status_phrase (env : environment) (code : Z) : string :=
  match responses env code with
  | Some (shortmsg, _) => shortmsg
  | None => ""
  end.

(** The line [log_request] writes. *)
Definition access_line (req : request) (code : Z) : string :=
  dquote ++ requestline req ++ dquote ++ " " ++ str_int code ++ " -".

(** The page [send_error] builds for a code and a message. *)
Definition error_page (env : environment) (code : Z) (message : string)
  : bytes :=
  encode (error_message_format code (html_escape message)
            (html_escape (snd (BaseHandler.short_long env code)))).

(** The head of an error reply of this handler. *)
Definition error_head (env : environment) (code : Z) (message : string)
  : list hline :=
  [StatusLine protocol_version code message;
   HeaderLine "Server" (version_string env);
   HeaderLine "Date" (date_time_string env None);
   HeaderLine "Connection" "close";
   HeaderLine "Content-Type" error_content_type;
   HeaderLine "Content-Length"
     (str_int (Z.of_nat (List.length (error_page env code message))));
   HeaderLine "Access-Control-Allow-Origin" "*";
   BlankLine].

Definition has_body (code : Z) : bool :=
  (200 <=? code) && negb ((code =? 204) || (code =? 205) || (code =? 304)).

(** The one call the proxy makes, for a declared length [n]. *)
Definition proxy_call (n : Z) (sent : bytes) : post_call :=
  mkPost "http://localhost:5000/api/track-order"
         (firstn (read_length n sent) sent)
         [("Content-Type", "application/json")] 10.

(** The head of a relayed reply. *)
Definition proxy_head (env : environment) (code : Z) : list hline :=
  [StatusLine protocol_version code (status_phrase env code);
   HeaderLine "Server" (version_string env);
   HeaderLine "Date" (date_time_string env None);
   HeaderLine "Content-Type" "application/json";
   HeaderLine "Access-Control-Allow-Origin" "*";
   HeaderLine "Access-Control-Allow-Methods" "POST, GET, OPTIONS";
   HeaderLine "Access-Control-Allow-Headers" "Content-Type";
   HeaderLine "Access-Control-Allow-Origin" "*";
   BlankLine].

(** The state when [requests.post] has answered or raised. *)
Definition after_post (n : Z) (s : state) : state :=
  mkState (headers_buffer s) (wfile s)
          (skipn (read_length n (rfile s)) (rfile s))
          (close_connection s) (stdout s) (stderr s)
          (posted s ++ [proxy_call n (rfile s)])%list.

(** The request gets as far as the backend: [Content-Length] is there,
    [int] accepts its value [v] as [n], and [read(n)] returns on a
    connection on which [sent] arrives. *)
Definition reaches_backend (env : environment) (req : request)
    (sent : bytes) (v : string) (n : Z) : Prop :=
  Message.get "Content-Length" (headers req) = Some v /\
  int_str (int_max_str_digits env) v = Some n /\
  ChatbotRequestHandler.read_error env n sent = None.

(** [Content-Length] is missing, or [int] rejects its value. *)
Definition bad_content_length (env : environment) (req : request) : Prop :=
  Message.get "Content-Length" (headers req) = None \/
  exists v, Message.get "Content-Length" (headers req) = Some v /\
            int_str (int_max_str_digits env) v = None.

(** The request version for which the base class writes a head. *)
Definition versioned (req : request) : bool :=
  negb (String.eqb (request_version req) "HTTP/0.9").

(** The reply [send_error] gives for a code and a message: nothing else
    enters it. *)
Definition error_response (env : environment) (code : Z) (message : string)
  : response :=
  mkResponse code message (header_fields (error_head env code message))
             (error_page env code message).

(** The fields of a head end with the CORS origin. *)
Definition cors_head (lines : list hline) : Prop :=
  exists version code message fields,
    lines = (StatusLine version code message
               :: fields ++ [HeaderLine "Access-Control-Allow-Origin" "*";
                             BlankLine])%list.


(** Nothing buffered, nothing written yet. *)
Definition quiet (s : state) : Prop :=
  headers_buffer s = [] /\ wfile s = [].

(** The method was cut by something that is no [Exception], before it
    wrote anything. *)
Definition silent {A} (o : outcome A * state) : Prop :=
  (exists e, fst o = Raises e /\ isinstance e Exception = false) /\
  wfile (snd o) = [].

(** The heads of the other replies. *)
Definition options_head (env : environment) : list hline :=
  [StatusLine protocol_version 200 (status_phrase env 200);
   HeaderLine "Server" (version_string env);
   HeaderLine "Date" (date_time_string env None);
   HeaderLine "Access-Control-Allow-Origin" "*";
   HeaderLine "Access-Control-Allow-Methods" "POST, GET, OPTIONS";
   HeaderLine "Access-Control-Allow-Headers" "Content-Type";
   HeaderLine "Access-Control-Allow-Origin" "*";
   BlankLine].

Definition file_head (env : environment) (p : string) (f : file) : list hline :=
  [StatusLine protocol_version 200 (status_phrase env 200);
   HeaderLine "Server" (version_string env);
   HeaderLine "Date" (date_time_string env None);
   HeaderLine "Content-type" (guess_type env p);
   HeaderLine "Content-Length"
     (str_int (Z.of_nat (List.length (file_content f))));
   HeaderLine "Last-Modified" (date_time_string env (Some (st_mtime f)));
   HeaderLine "Access-Control-Allow-Origin" "*";
   BlankLine].

Definition not_modified_head (env : environment) : list hline :=
  [StatusLine protocol_version 304 (status_phrase env 304);
   HeaderLine "Server" (version_string env);
   HeaderLine "Date" (date_time_string env None);
   HeaderLine "Access-Control-Allow-Origin" "*";
   BlankLine].

(** What [main] prints when an [OSError] ends it. *)
Definition os_error_line (e : exn) : string :=
  if match errno e with Some n => n =? 48 | None => false end
  then "❌ Port " ++ str_int PORT ++ " is already in use. Try a different port."
  else "❌ Server error: " ++ str e.

(** The claims as they are worded, where the code departs from them. *)

Definition forwards_content_type (env : environment) (req : request)
    (sent : bytes) : Prop :=
  forall c, In c (posted (snd (handle env req sent))) ->
    Message.get "Content-Type" (post_headers c) =
    Message.get "Content-Type" (headers req).

Definition relays_content_type (env : environment) (req : request)
    (sent : bytes) (up : upstream_response) : Prop :=
  exists r, serve env req sent = Some r /\
    Message.get "Content-Type" (response_headers r) =
    Message.get "Content-Type" (upstream_headers up).

Definition exactly_preflight_headers (r : response) : Prop :=
  forall h, In h (response_headers r) <->
            In h [cors_origin; cors_methods; cors_allow_headers].

(** *** Further terms: the forms of a reply, the proxy's outcomes *)

(** The [Location] of a redirect: the URL of the request with a slash
    added to its path. *)
Definition with_slash (env : environment) (u : string) : string :=
  let parts := urlsplit env u in
  urlunsplit env
    (mkParts (url_scheme parts) (url_netloc parts) (url_path parts ++ "/")
             (url_query parts) (url_fragment parts)).

Definition redirect_head (env : environment) (req : request) : list hline :=
  [StatusLine protocol_version 301 (status_phrase env 301);
   HeaderLine "Server" (version_string env);
   HeaderLine "Date" (date_time_string env None);
   HeaderLine "Location" (with_slash env (path req));
   HeaderLine "Content-Length" "0";
   HeaderLine "Access-Control-Allow-Origin" "*";
   BlankLine].

Definition listing_head (env : environment) (page : bytes) : list hline :=
  [StatusLine protocol_version 200 (status_phrase env 200);
   HeaderLine "Server" (version_string env);
   HeaderLine "Date" (date_time_string env None);
   HeaderLine "Content-type"
     ("text/html; charset=" ++ getfilesystemencoding env);
   HeaderLine "Content-Length" (str_int (Z.of_nat (List.length page)));
   HeaderLine "Access-Control-Allow-Origin" "*";
   BlankLine].

(** What a head becomes on the wire: nothing for HTTP/0.9. *)
Definition head_part (req : request) (lines : list hline) : list wire :=
  if versioned req then [Head lines] else [].

(** The headers buffer once a head is sent: HTTP/0.9 never touches it. *)
Definition buffer_left (req : request) (buffer : list hline) : list hline :=
  if versioned req then [] else buffer.

(** What follows a head whose body is [b]: nothing for HEAD. *)
Definition body_part (req : request) (b : bytes) : list wire :=
  if String.eqb (command req) "HEAD" then [] else [Data b].

(** The heads that announce content, with that content. *)
Inductive content_head (env : environment) : list hline -> bytes -> Prop :=
| head_of_file p f :
    lookup env p = Some (RegularFile f) ->
    content_head env (file_head env p f) (file_content f)
| head_of_listing p q page :
    listing env p q = Some page ->
    content_head env (listing_head env page) page.

(** The forms a complete reply of the handler takes, as a head and what
    follows it. *)
Inductive reply (env : environment) (req : request)
  : list hline -> list wire -> Prop :=
| reply_error code message :
    has_body code = true ->
    reply env req (error_head env code message)
          (body_part req (error_page env code message))
| reply_content h b :
    content_head env h b ->
    reply env req h (body_part req b)
| reply_not_modified :
    reply env req (not_modified_head env) []
| reply_redirect :
    reply env req (redirect_head env req) []
| reply_options :
    command req = "OPTIONS" ->
    reply env req (options_head env) []
| reply_relay up :
    command req = "POST" ->
    reply env req (proxy_head env (status_code up)) [Data (content up)].

(** What reaches the client is one of these replies, the head being left
    out for HTTP/0.9. *)
Definition replied (env : environment) (req : request) (w : list wire)
  : Prop :=
  exists h rest, reply env req h rest /\ w = (head_part req h ++ rest)%list.

(** [send_head] from a quiet state: a complete reply, or a head that
    announces the content it returns. *)
Definition head_sent (env : environment) (req : request)
    (o : outcome (option bytes) * state) : Prop :=
  headers_buffer (snd o) = [] /\
  ((fst o = Returns None /\ replied env req (wfile (snd o))) \/
   (exists h b, fst o = Returns (Some b) /\ content_head env h b /\
                wfile (snd o) = head_part req h)).

(** The state after [send_error], with what was printed before it. *)
Definition after_error (env : environment) (req : request) (code : Z)
    (message : string) (printed : list string) (s : state) : state :=
  mkState (buffer_left req (headers_buffer s))
    (wfile s ++
       head_part req (headers_buffer s ++ error_head env code message) ++
       body_part req (error_page env code message))%list
    (rfile s) true (stdout s ++ printed)%list
    (stderr s ++ [("code " ++ str_int code ++ ", message " ++ message)%string;
                  access_line req code])%list
    (posted s).

(** The state after a head with the given lines (the status line first),
    sent with [send_response], [send_header] and [end_headers]. *)
Definition after_head (req : request) (code : Z) (lines : list hline)
    (s : state) : state :=
  mkState (buffer_left req (headers_buffer s))
    (wfile s ++ head_part req (headers_buffer s ++ lines))%list
    (rfile s) (close_connection s) (stdout s)
    (stderr s ++ [access_line req code])%list
    (posted s).

(** The state after a relayed reply. *)
Definition after_relay (env : environment) (req : request) (n : Z)
    (up : upstream_response) (s : state) : state :=
  mkState (buffer_left req (headers_buffer s))
    (wfile s ++
       head_part req (headers_buffer s ++ proxy_head env (status_code up)) ++
       [Data (content up)])%list
    (skipn (read_length n (rfile s)) (rfile s))
    (close_connection s) (stdout s)
    (stderr s ++ [access_line req (status_code up)])%list
    (posted s ++ [proxy_call n (rfile s)])%list.

(** What precedes the call to the backend: the declared length, when
    [int] accepts the field and [read] returns, else the exception that
    [int] or [read] raises. *)
Definition before_call (env : environment) (req : request) (arrived : bytes)
  : outcome Z :=
  match Message.get "Content-Length" (headers req) with
  | None => Raises (mkExn TypeError None (int_error_text env None))
  | Some v =>
      match int_str (int_max_str_digits env) v with
      | None => Raises (mkExn ValueError None (int_error_text env (Some v)))
      | Some n =>
          match ChatbotRequestHandler.read_error env n arrived with
          | Some e => Raises e
          | None => Returns n
          end
      end
  end.

(** The line the proxy prints for an exception. *)
Definition proxy_error_line (e : exn) : string := "Proxy error: " ++ str e.

(** What the two [except] clauses make of an exception raised in [s]. *)
Definition caught (env : environment) (req : request) (e : exn) (s : state)
  : outcome unit * state :=
  if isinstance e ConnectionError then
    (Returns tt, after_error env req 503 "Backend service unavailable" [] s)
  else if isinstance e Exception then
    (Returns tt,
     after_error env req 500 "Internal server error" [proxy_error_line e] s)
  else (Raises e, s).

(** All the ways [proxy_to_backend] ends. *)
Definition proxy_result (env : environment) (req : request) (s : state)
  : outcome unit * state :=
  match before_call env req (rfile s) with
  | Raises e => caught env req e s
  | Returns n =>
      match requests_post env (proxy_call n (rfile s)) with
      | Returns up => (Returns tt, after_relay env req n up s)
      | Raises e => caught env req e (after_post n s)
      end
  end.

(** The exception the proxy met, if any: before the call or in it. *)
Definition proxy_exception (env : environment) (req : request) (sent : bytes)
  : option exn :=
  match before_call env req sent with
  | Raises e => Some e
  | Returns n =>
      match requests_post env (proxy_call n sent) with
      | Returns _ => None
      | Raises e => Some e
      end
  end.

(** What a method that only replies leaves alone: the request body, the
    console and the backend; and it does not reopen the connection. *)
Definition kept (s s' : state) : Prop :=
  rfile s' = rfile s /\ stdout s' = stdout s /\ posted s' = posted s /\
  (close_connection s = true -> close_connection s' = true).

Definition replies_only {A} (m : M A) : Prop :=
  forall s, kept s (snd (m s)).

(** How many times the CORS origin field occurs in a reply. *)
Definition origin_count (r : response) : nat :=
  List.length
    (filter (fun kv => String.eqb (fst kv) "Access-Control-Allow-Origin")
            (response_headers r)).

(** The bytes written to the client after the head, or with no head. *)
Fixpoint data_written (w : list wire) : list bytes :=
  match w with
  | [] => []
  | Data b :: rest => b :: data_written rest
  | Head _ :: rest => data_written rest
  end.

(** What [main] prints once the server is bound. *)
Definition banner : list string :=
  ["🚀 JavaScript Chatbot Server running at:";
   "   http://localhost:8080";
   "   http://127.0.0.1:8080";
   nl ++ "📋 Demo credentials:";
   "   john.doe@example.com / ORD-2024-001";
   "   jane.smith@company.com / ORD-2024-002";
   nl ++ "🔗 Backend API: http://localhost:5000";
   "🛑 Press Ctrl+C to stop the server" ++ nl].

Definition stopped_line : string := nl ++ "🛑 Server stopped.".

(** The exception that ends [main]'s [try] block. *)
Definition ending (w : startup) : exn :=
  match tcp_server w with
  | Some e => e
  | None => serve_forever w
  end.

(** ** Running the inherited methods *)

(** Projections of a state that was just built. *)
Ltac simpl_state :=
  cbn [headers_buffer wfile rfile close_connection stdout stderr posted
       set_headers_buffer set_wfile set_rfile set_close_connection
       set_stdout set_stderr set_posted fst snd].

Lemma bind_returns {A B} (m : M A) (k : A -> M B) s a s' :
  m s = (Returns a, s') -> bind m k s = k a s'.
Proof. intros H. unfold bind. rewrite H. reflexivity. Qed.

Lemma bind_raises {A B} (m : M A) (k : A -> M B) s e s' :
  m s = (Raises e, s') -> bind m k s = (Raises e, s').
Proof. intros H. unfold bind. rewrite H. reflexivity. Qed.

Lemma bind_eq {A B} (m : M A) (k : A -> M B) s :
  bind m k s =
  match m s with
  | (Returns a, s') => k a s'
  | (Raises e, s') => (Raises e, s')
  end.
Proof. reflexivity. Qed.

Lemma state_eta s :
  mkState (headers_buffer s) (wfile s) (rfile s) (close_connection s)
          (stdout s) (stderr s) (posted s) = s.
Proof. destruct s. reflexivity. Qed.

Lemma versioned_true req :
  request_version req <> "HTTP/0.9" -> versioned req = true.
Proof.
  intros H. unfold versioned. apply String.eqb_neq in H. rewrite H.
  reflexivity.
Qed.


Lemma head_part_versioned req lines :
  versioned req = true -> head_part req lines = [Head lines].
Proof. intros H. unfold head_part. rewrite H. reflexivity. Qed.

Lemma head_part_simple req lines :
  versioned req = false -> head_part req lines = [].
Proof. intros H. unfold head_part. rewrite H. reflexivity. Qed.

Lemma buffer_left_nil req : buffer_left req [] = [].
Proof. unfold buffer_left. destruct (versioned req); reflexivity. Qed.

Section Runs.

Variable env : environment.
Variable req : request.

(** *** With a request version other than HTTP/0.9 *)

Section Versioned.
Hypothesis Hv : versioned req = true.

Lemma send_header_run k v s :
  String.eqb (lower k) "connection" = false ->
  BaseHandler.send_header req k v s =
  (Returns tt,
   mkState (headers_buffer s ++ [HeaderLine k v])%list
           (wfile s) (rfile s) (close_connection s) (stdout s)
           (stderr s) (posted s)).
Proof.
  intros H. unfold BaseHandler.send_header.
  change (BaseHandler.has_headers req) with (versioned req).
  rewrite Hv, H. reflexivity.
Qed.

Lemma send_header_close s :
  BaseHandler.send_header req "Connection" "close" s =
  (Returns tt,
   mkState (headers_buffer s ++ [HeaderLine "Connection" "close"])%list
           (wfile s) (rfile s) true (stdout s) (stderr s) (posted s)).
Proof.
  unfold BaseHandler.send_header.
  change (BaseHandler.has_headers req) with (versioned req).
  rewrite Hv. reflexivity.
Qed.

Lemma send_response_run code m s :
  BaseHandler.send_response env req code m s =
  (Returns tt,
   mkState (headers_buffer s ++
              [StatusLine protocol_version code
                 (match m with Some m => m | None => status_phrase env code end);
               HeaderLine "Server" (version_string env);
               HeaderLine "Date" (date_time_string env None)])%list
           (wfile s) (rfile s) (close_connection s) (stdout s)
           (stderr s ++ [access_line req code])%list
           (posted s)).
Proof.
  unfold BaseHandler.send_response.
  unfold bind at 1. unfold bind at 1.
  unfold BaseHandler.send_response_only.
  change (BaseHandler.has_headers req) with (versioned req). rewrite Hv.
  cbn [BaseHandler.log_request BaseHandler.log_message modify].
  rewrite (bind_returns _ _ _ _ _ (send_header_run "Server" _ _ eq_refl)).
  rewrite (send_header_run "Date") by reflexivity.
  simpl_state. rewrite <- !app_assoc. reflexivity.
Qed.

Lemma end_headers_run s :
  ChatbotRequestHandler.end_headers req s =
  (Returns tt,
   mkState []
     (wfile s ++ [Head (headers_buffer s ++ [HeaderLine "Access-Control-Allow-Origin" "*"; BlankLine])])%list
     (rfile s) (close_connection s) (stdout s) (stderr s) (posted s)).
Proof.
  unfold ChatbotRequestHandler.end_headers.
  rewrite (bind_returns _ _ _ _ _
             (send_header_run "Access-Control-Allow-Origin" _ _ eq_refl)).
  unfold BaseHandler.end_headers.
  change (BaseHandler.has_headers req) with (versioned req). rewrite Hv.
  unfold BaseHandler.flush_headers, bind, modify.
  simpl_state. rewrite <- !app_assoc. reflexivity.
Qed.

End Versioned.

(** *** With request version HTTP/0.9: no status line, no header *)

Section Simple.
Hypothesis Hv : versioned req = false.

Lemma send_header_run09 k v s :
  String.eqb (lower k) "connection" = false ->
  BaseHandler.send_header req k v s = (Returns tt, s).
Proof.
  intros H. unfold BaseHandler.send_header.
  change (BaseHandler.has_headers req) with (versioned req).
  rewrite Hv, H. reflexivity.
Qed.

Lemma send_header_close09 s :
  BaseHandler.send_header req "Connection" "close" s =
  (Returns tt,
   mkState (headers_buffer s) (wfile s) (rfile s) true (stdout s) (stderr s)
           (posted s)).
Proof.
  unfold BaseHandler.send_header.
  change (BaseHandler.has_headers req) with (versioned req).
  rewrite Hv. reflexivity.
Qed.

Lemma send_response_run09 code m s :
  BaseHandler.send_response env req code m s =
  (Returns tt,
   mkState (headers_buffer s) (wfile s) (rfile s) (close_connection s)
           (stdout s) (stderr s ++ [access_line req code])%list (posted s)).
Proof.
  unfold BaseHandler.send_response.
  unfold bind at 1. unfold bind at 1.
  unfold BaseHandler.send_response_only.
  change (BaseHandler.has_headers req) with (versioned req). rewrite Hv.
  cbn [BaseHandler.log_request BaseHandler.log_message modify ret].
  rewrite (bind_returns _ _ _ _ _ (send_header_run09 "Server" _ _ eq_refl)).
  rewrite (send_header_run09 "Date") by reflexivity.
  reflexivity.
Qed.

Lemma end_headers_run09 s :
  ChatbotRequestHandler.end_headers req s = (Returns tt, s).
Proof.
  unfold ChatbotRequestHandler.end_headers.
  rewrite (bind_returns _ _ _ _ _
             (send_header_run09 "Access-Control-Allow-Origin" _ _ eq_refl)).
  unfold BaseHandler.end_headers.
  change (BaseHandler.has_headers req) with (versioned req). rewrite Hv.
  reflexivity.
Qed.

End Simple.

Lemma error_page_not_nil code message : error_page env code message <> [].
Proof. unfold error_page, error_message_format. cbn. discriminate. Qed.

End Runs.

(** One step of a head, for either kind of request version: [Hv] tells
    which. *)
Ltac head_step env req Hv :=
  first
    [ rewrite (bind_returns _ _ _ _ _ (send_response_run env req Hv _ _ _))
    | rewrite (bind_returns _ _ _ _ _ (send_response_run09 env req Hv _ _ _))
    | rewrite (bind_returns _ _ _ _ _ (send_header_close req Hv _))
    | rewrite (bind_returns _ _ _ _ _ (send_header_close09 req Hv _))
    | rewrite (bind_returns _ _ _ _ _ (end_headers_run req Hv _))
    | rewrite (bind_returns _ _ _ _ _ (end_headers_run09 req Hv _))
    | rewrite (end_headers_run req Hv)
    | rewrite (end_headers_run09 req Hv)
    | match goal with
      | |- context [bind (BaseHandler.send_header req ?k ?v) _ ?s] =>
          first
            [ rewrite (bind_returns _ _ _ _ _
                         (send_header_run req Hv k v s eq_refl))
            | rewrite (bind_returns _ _ _ _ _
                         (send_header_run09 req Hv k v s eq_refl)) ]
      | |- context [BaseHandler.send_header req ?k ?v ?s] =>
          first
            [ rewrite (send_header_run req Hv k v s eq_refl)
            | rewrite (send_header_run09 req Hv k v s eq_refl) ]
      end ];
  simpl_state.

Ltac run_head env req Hv := repeat head_step env req Hv.

(** The end of a run: the state reached is the one stated. *)
Ltac same_state Hv :=
  unfold after_error, after_head, after_relay, head_part, buffer_left,
    body_part;
  rewrite ?Hv; unfold ret, wfile_write, modify; simpl_state;
  cbn [app]; rewrite <- ?app_assoc; cbn [app]; rewrite ?app_nil_r;
  try reflexivity.

Section Heads.
Variable env : environment.
Variable req : request.

Lemma send_error_run code message s :
  has_body code = true ->
  ChatbotRequestHandler.send_error env req code (Some message) s =
  (Returns tt, after_error env req code message [] s).
Proof.
  intros Hb.
  unfold ChatbotRequestHandler.send_error, BaseHandler.send_error.
  unfold BaseHandler.error_body. fold (has_body code). rewrite Hb.
  fold (error_page env code message).
  pose proof (error_page_not_nil env code message) as Hne.
  unfold after_error, error_head.
  destruct (error_page env code message) as [|b0 bs] eqn:Hp; [congruence|].
  unfold BaseHandler.log_error, BaseHandler.log_message.
  unfold bind at 1. unfold modify at 1. simpl_state.
  destruct (versioned req) eqn:Hv.
  - run_head env req Hv. unfold bind at 1. run_head env req Hv.
    same_state Hv.
    destruct (String.eqb (command req) "HEAD"); same_state Hv.
  - run_head env req Hv. unfold bind at 1. run_head env req Hv.
    same_state Hv.
    destruct (String.eqb (command req) "HEAD"); same_state Hv.
Qed.

Lemma print_then_send_error code message line s :
  has_body code = true ->
  (print line ;;
   ChatbotRequestHandler.send_error env req code (Some message)) s =
  (Returns tt, after_error env req code message [line] s).
Proof.
  intros H. unfold print at 1. unfold bind, modify.
  rewrite (send_error_run code message _ H).
  unfold after_error. simpl_state. rewrite app_nil_r. reflexivity.
Qed.

Lemma do_OPTIONS_run s :
  ChatbotRequestHandler.do_OPTIONS env req s =
  (Returns tt, after_head req 200 (options_head env) s).
Proof.
  unfold ChatbotRequestHandler.do_OPTIONS,
    ChatbotRequestHandler.send_response, ChatbotRequestHandler.send_header.
  destruct (versioned req) eqn:Hv; run_head env req Hv; same_state Hv.
Qed.

End Heads.

(** ** Running the proxy *)

Section Proxy.
Variable env : environment.
Variable req : request.

Lemma try_except_returns {A} (m : M A) cl s a s' :
  m s = (Returns a, s') -> try_except m cl s = (Returns a, s').
Proof. intros H. unfold try_except. rewrite H. reflexivity. Qed.

Lemma try_except_raises {A} (m : M A) cl s e s' :
  m s = (Raises e, s') ->
  try_except m cl s =
  match find_clause e cl with Some h => h e s' | None => (Raises e, s') end.
Proof. intros H. unfold try_except. rewrite H. reflexivity. Qed.

(** The two clauses of the proxy, on an exception raised in [s]. *)
Lemma proxy_clauses e s :
  match
    find_clause e
      [(ConnectionError,
         fun _ : exn => ChatbotRequestHandler.send_error env req 503
                          (Some "Backend service unavailable"));
       (Exception,
         fun e : exn =>
           print ("Proxy error: " ++ str e) ;;
           ChatbotRequestHandler.send_error env req 500
             (Some "Internal server error"))]
  with
  | Some h => h e s
  | None => (Raises e, s)
  end = caught env req e s.
Proof.
  cbn [find_clause]. unfold caught.
  destruct (isinstance e ConnectionError).
  { apply send_error_run. reflexivity. }
  destruct (isinstance e Exception); [|reflexivity].
  apply print_then_send_error. reflexivity.
Qed.

(** The relay of an answer of the backend. *)
Lemma relay_run n up s :
  (ChatbotRequestHandler.send_response env req (status_code up) None ;;
   ChatbotRequestHandler.send_header req "Content-Type" "application/json" ;;
   ChatbotRequestHandler.send_header req "Access-Control-Allow-Origin" "*" ;;
   ChatbotRequestHandler.send_header req "Access-Control-Allow-Methods"
     "POST, GET, OPTIONS" ;;
   ChatbotRequestHandler.send_header req "Access-Control-Allow-Headers"
     "Content-Type" ;;
   ChatbotRequestHandler.end_headers req ;;
   wfile_write (content up)) (after_post n s) =
  (Returns tt, after_relay env req n up s).
Proof.
  unfold ChatbotRequestHandler.send_response,
    ChatbotRequestHandler.send_header, after_post.
  destruct (versioned req) eqn:Hv; run_head env req Hv; same_state Hv.
Qed.

(** [proxy_to_backend], whatever the request and the backend. *)
Lemma proxy_run s :
  ChatbotRequestHandler.proxy_to_backend env req s = proxy_result env req s.
Proof.
  unfold ChatbotRequestHandler.proxy_to_backend, proxy_result, before_call.
  destruct (Message.get "Content-Length" (headers req)) as [v|].
  2:{ erewrite try_except_raises by reflexivity. apply proxy_clauses. }
  unfold ChatbotRequestHandler.int_.
  destruct (int_str (int_max_str_digits env) v) as [n|].
  2:{ erewrite try_except_raises by reflexivity. apply proxy_clauses. }
  unfold try_except.
  rewrite (bind_returns _ _ _ _ _ (eq_refl : ret n s = (Returns n, s))).
  rewrite bind_eq. unfold ChatbotRequestHandler.rfile_read at 1.
  destruct (ChatbotRequestHandler.read_error env n (rfile s)) as [e|] eqn:Hr.
  { cbv beta iota. apply proxy_clauses. }
  cbv beta iota.
  rewrite bind_eq. unfold ChatbotRequestHandler.requests_post_ at 1.
  cbv beta iota zeta. simpl_state.
  change (BACKEND_URL ++ "/api/track-order")%string
    with "http://localhost:5000/api/track-order".
  fold (proxy_call n (rfile s)). fold (after_post n s).
  destruct (requests_post env (proxy_call n (rfile s))) as [up|e] eqn:Hup.
  - change (set_posted _ _) with (after_post n s).
    rewrite relay_run. reflexivity.
  - exact (proxy_clauses e (after_post n s)).
Qed.

Lemma dispatch_post :
  command req = "POST" ->
  ChatbotRequestHandler.handle_one_request env req =
  ChatbotRequestHandler.do_POST env req.
Proof.
  intros H. unfold ChatbotRequestHandler.handle_one_request.
  rewrite H. reflexivity.
Qed.

Lemma dispatch_proxy :
  command req = "POST" -> path req = "/api/track-order" ->
  ChatbotRequestHandler.handle_one_request env req =
  ChatbotRequestHandler.proxy_to_backend env req.
Proof.
  intros Hc Hp. rewrite (dispatch_post Hc).
  unfold ChatbotRequestHandler.do_POST. rewrite Hp. reflexivity.
Qed.

Lemma handle_proxy sent :
  command req = "POST" -> path req = "/api/track-order" ->
  handle env req sent = proxy_result env req (fresh sent).
Proof.
  intros Hc Hp. unfold handle. rewrite (dispatch_proxy Hc Hp).
  apply proxy_run.
Qed.

Lemma reaches_before_call sent v n :
  reaches_backend env req sent v n ->
  before_call env req sent = Returns n.
Proof.
  intros (Hget & Hint & Hread). unfold before_call.
  rewrite Hget, Hint, Hread. reflexivity.
Qed.

Lemma bad_length_before_call sent :
  bad_content_length env req ->
  exists e, before_call env req sent = Raises e /\
            isinstance e ConnectionError = false /\
            isinstance e Exception = true /\
            str e = int_error_text env
                      (Message.get "Content-Length" (headers req)).
Proof.
  unfold before_call.
  intros [Hget | (v & Hget & Hint)]; rewrite Hget; [|rewrite Hint];
    eexists; repeat split.
Qed.


End Proxy.

Lemma post_not_head req :
  command req = "POST" -> String.eqb (command req) "HEAD" = false.
Proof. intros H. rewrite H. reflexivity. Qed.

Lemma connection_error_is_exception e :
  isinstance e ConnectionError = true -> isinstance e Exception = true.
Proof.
  unfold isinstance. destruct (exn_class_of e); vm_compute; congruence.
Qed.

Lemma request_exception_is_exception e :
  isinstance e RequestException = true -> isinstance e Exception = true.
Proof.
  unfold isinstance. destruct (exn_class_of e); vm_compute; congruence.
Qed.


(** ** What the client reads *)




Lemma response_of_head_body h code message ls b :
  h = StatusLine protocol_version code message :: ls ->
  response_of [Head h; Data b] =
  Some (mkResponse code message (header_fields ls) b).
Proof. intros ->. cbn. rewrite app_nil_r. reflexivity. Qed.

Lemma response_of_head h code message ls :
  h = StatusLine protocol_version code message :: ls ->
  response_of [Head h] = Some (mkResponse code message (header_fields ls) []).
Proof. intros ->. reflexivity. Qed.

Lemma some_eq {A} (a b : A) : Some a = Some b -> a = b.
Proof. intros H. injection H. auto. Qed.

(** The reply to a request that is no HEAD, after [send_error]. *)
Lemma serve_after_error env req code message printed s :
  versioned req = true ->
  String.eqb (command req) "HEAD" = false ->
  quiet s ->
  response_of (wfile (after_error env req code message printed s)) =
  Some (error_response env code message).
Proof.
  intros Hv Hh (Hb & Hw). unfold after_error. simpl_state.
  rewrite Hb, Hw. unfold head_part, body_part. rewrite Hv, Hh.
  cbn [app]. erewrite response_of_head_body by reflexivity. reflexivity.
Qed.

Lemma data_after_error env req code message printed s :
  String.eqb (command req) "HEAD" = false ->
  quiet s ->
  data_written (wfile (after_error env req code message printed s)) =
  [error_page env code message].
Proof.
  intros Hh (Hb & Hw). unfold after_error. simpl_state.
  rewrite Hw. unfold head_part, body_part. rewrite Hh.
  destruct (versioned req); reflexivity.
Qed.

Lemma serve_after_relay env req n up s :
  versioned req = true ->
  quiet s ->
  response_of (wfile (after_relay env req n up s)) =
  Some (mkResponse (status_code up) (status_phrase env (status_code up))
          (header_fields (tl (proxy_head env (status_code up))))
          (content up)).
Proof.
  intros Hv (Hb & Hw). unfold after_relay. simpl_state.
  rewrite Hb, Hw. unfold head_part. rewrite Hv.
  cbn [app]. erewrite response_of_head_body by reflexivity. reflexivity.
Qed.

Lemma quiet_fresh sent : quiet (fresh sent).
Proof. split; reflexivity. Qed.

Lemma quiet_after_post n s : quiet s -> quiet (after_post n s).
Proof. intros H. exact H. Qed.

Lemma append_assoc (a b c : string) : ((a ++ b) ++ c = a ++ (b ++ c))%string.
Proof. induction a as [|x a IH]; cbn; [reflexivity | now rewrite IH]. Qed.

Lemma error_page_shows_message env code message :
  exists before after,
    error_page env code message =
    encode (before ++ "<p>Message: " ++ html_escape message ++ ".</p>" ++ after).
Proof.
  unfold error_page, error_message_format.
  exists ("<!DOCTYPE HTML>" ++ nl ++
          "<html lang=" ++ dquote ++ "en" ++ dquote ++ ">" ++ nl ++
          "    <head>" ++ nl ++
          "        <meta charset=" ++ dquote ++ "utf-8" ++ dquote ++ ">" ++ nl ++
          "        <title>Error response</title>" ++ nl ++
          "    </head>" ++ nl ++
          "    <body>" ++ nl ++
          "        <h1>Error response</h1>" ++ nl ++
          "        <p>Error code: " ++ str_int code ++ "</p>" ++ nl ++
          "        ")%string.
  eexists. f_equal.
  rewrite !append_assoc. cbn [append nl dquote].
  repeat f_equal.
Qed.

(** ** Static files *)

Section Static.
Variable env : environment.
Variable req : request.


Lemma send_file_head_found p f s :
  endswith_slash p = false ->
  lookup env p = Some (RegularFile f) ->
  openable f = true ->
  BaseHandler.send_file_head env req (ChatbotRequestHandler.end_headers req) p s =
  if BaseHandler.not_modified env req f then
    (Returns None, after_head req 304 (not_modified_head env) s)
  else
    (Returns (Some (file_content f)), after_head req 200 (file_head env p f) s).
Proof.
  intros Hs Hl Ho. unfold BaseHandler.send_file_head. rewrite Hs, Hl, Ho.
  cbn [negb].
  destruct (BaseHandler.not_modified env req f);
    destruct (versioned req) eqn:Hv; run_head env req Hv; same_state Hv.
Qed.

(** What [open] fails on is answered 404. *)
Lemma send_file_head_missing p s :
  match lookup env p with
  | Some (RegularFile f) => endswith_slash p = true \/ openable f = false
  | _ => True
  end ->
  BaseHandler.send_file_head env req (ChatbotRequestHandler.end_headers req) p s =
  (Returns None, after_error env req 404 "File not found" [] s).
Proof.
  intros H. unfold BaseHandler.send_file_head.
  change (BaseHandler.send_error env req (ChatbotRequestHandler.end_headers req))
    with (ChatbotRequestHandler.send_error env req).
  assert (Hrun :
    (ChatbotRequestHandler.send_error env req 404 (Some "File not found") ;;
     ret None) s =
    (Returns (@None bytes), after_error env req 404 "File not found" [] s)).
  { rewrite (bind_returns _ _ _ _ _
               (send_error_run env req 404 "File not found" s eq_refl)).
    reflexivity. }
  destruct (endswith_slash p); [exact Hrun|].
  destruct (lookup env p) as [[f|]|]; try exact Hrun.
  destruct H as [H|H]; [discriminate|]. rewrite H. exact Hrun.
Qed.

Lemma redirect_run s :
  (BaseHandler.send_response env req 301 None ;;
   BaseHandler.send_header req "Location" (with_slash env (path req)) ;;
   BaseHandler.send_header req "Content-Length" "0" ;;
   ChatbotRequestHandler.end_headers req ;;
   ret (@None bytes)) s =
  (Returns None, after_head req 301 (redirect_head env req) s).
Proof.
  destruct (versioned req) eqn:Hv; run_head env req Hv; same_state Hv.
Qed.

Lemma list_directory_run p s :
  BaseHandler.list_directory env req (ChatbotRequestHandler.end_headers req) p s =
  match listing env p (path req) with
  | Some page =>
      (Returns (Some page), after_head req 200 (listing_head env page) s)
  | None =>
      (Returns None,
       after_error env req 404 "No permission to list directory" [] s)
  end.
Proof.
  unfold BaseHandler.list_directory.
  destruct (listing env p (path req)) as [page|].
  - destruct (versioned req) eqn:Hv; run_head env req Hv; same_state Hv.
  - change (BaseHandler.send_error env req (ChatbotRequestHandler.end_headers req))
      with (ChatbotRequestHandler.send_error env req).
    rewrite (bind_returns _ _ _ _ _
               (send_error_run env req 404 _ s eq_refl)).
    reflexivity.
Qed.

Lemma dispatch_get :
  command req = "GET" ->
  ChatbotRequestHandler.handle_one_request env req =
  ChatbotRequestHandler.do_GET env req.
Proof.
  intros H. unfold ChatbotRequestHandler.handle_one_request.
  rewrite H. reflexivity.
Qed.

Lemma dispatch_head :
  command req = "HEAD" ->
  ChatbotRequestHandler.handle_one_request env req =
  ChatbotRequestHandler.do_HEAD env req.
Proof.
  intros H. unfold ChatbotRequestHandler.handle_one_request.
  rewrite H. reflexivity.
Qed.

Lemma dispatch_options :
  command req = "OPTIONS" ->
  ChatbotRequestHandler.handle_one_request env req =
  ChatbotRequestHandler.do_OPTIONS env req.
Proof.
  intros H. unfold ChatbotRequestHandler.handle_one_request.
  rewrite H. reflexivity.
Qed.

Lemma dispatch_unsupported :
  String.eqb (command req) "GET" = false ->
  String.eqb (command req) "HEAD" = false ->
  String.eqb (command req) "POST" = false ->
  String.eqb (command req) "OPTIONS" = false ->
  ChatbotRequestHandler.handle_one_request env req =
  ChatbotRequestHandler.send_error env req 501
    (Some ("Unsupported method (" ++ repr env (command req) ++ ")")).
Proof.
  intros H1 H2 H3 H4. unfold ChatbotRequestHandler.handle_one_request.
  rewrite H1, H2, H3, H4. reflexivity.
Qed.


Lemma isdir_directory p :
  lookup env p = Some Directory -> BaseHandler.isdir env p = true.
Proof. intros H. unfold BaseHandler.isdir. rewrite H. reflexivity. Qed.

Lemma isfile_regular p f :
  lookup env p = Some (RegularFile f) -> BaseHandler.isfile env p = true.
Proof. intros H. unfold BaseHandler.isfile. rewrite H. reflexivity. Qed.

(** [do_GET] once [send_head] is known. *)
Lemma do_GET_run s o s' :
  BaseHandler.send_head env req (ChatbotRequestHandler.end_headers req) s
    = (Returns o, s') ->
  ChatbotRequestHandler.do_GET env req s =
  (Returns tt,
   match o with
   | Some b => set_wfile (wfile s' ++ [Data b])%list s'
   | None => s'
   end).
Proof.
  intros H. unfold ChatbotRequestHandler.do_GET, BaseHandler.do_GET.
  rewrite (bind_returns _ _ _ _ _ H). destruct o; reflexivity.
Qed.

End Static.

(** ** The forms of a reply *)

Section Forms.
Variable env : environment.
Variable req : request.

Lemma replied_after_error code message printed s :
  quiet s -> has_body code = true ->
  replied env req (wfile (after_error env req code message printed s)).
Proof.
  intros (Hb & Hw) Hc. unfold after_error. simpl_state. rewrite Hb, Hw.
  cbn [app]. eexists _, _. split; [|reflexivity].
  apply reply_error. assumption.
Qed.

Lemma replied_after_head code lines s :
  quiet s -> reply env req lines [] ->
  replied env req (wfile (after_head req code lines s)).
Proof.
  intros (Hb & Hw) Hr. unfold after_head. simpl_state. rewrite Hb, Hw.
  cbn [app]. eexists _, _. split; [exact Hr|].
  rewrite app_nil_r. reflexivity.
Qed.

Lemma buffer_after_error code message printed s :
  quiet s ->
  headers_buffer (after_error env req code message printed s) = [].
Proof.
  intros (Hb & _). unfold after_error. simpl_state. rewrite Hb.
  apply buffer_left_nil.
Qed.

Lemma buffer_after_head code lines s :
  quiet s -> headers_buffer (after_head req code lines s) = [].
Proof.
  intros (Hb & _). unfold after_head. simpl_state. rewrite Hb.
  apply buffer_left_nil.
Qed.

Lemma wfile_after_head code lines s :
  quiet s -> wfile (after_head req code lines s) = head_part req lines.
Proof.
  intros (Hb & Hw). unfold after_head. simpl_state. rewrite Hb, Hw.
  reflexivity.
Qed.

Lemma send_file_head_form p s :
  quiet s ->
  head_sent env req (BaseHandler.send_file_head env req
               (ChatbotRequestHandler.end_headers req) p s).
Proof.
  intros Hq.
  assert (Hmiss :
    head_sent env req
      (Returns None, after_error env req 404 "File not found" [] s)).
  { split; [apply buffer_after_error; assumption|]. left.
    split; [reflexivity|]. apply replied_after_error; [assumption|reflexivity]. }
  destruct (lookup env p) as [[f|]|] eqn:Hl.
  2,3: rewrite send_file_head_missing by (rewrite Hl; exact I); exact Hmiss.
  destruct (endswith_slash p) eqn:Hs.
  { rewrite send_file_head_missing by (rewrite Hl; left; exact Hs).
    exact Hmiss. }
  destruct (openable f) eqn:Ho.
  2:{ rewrite send_file_head_missing by (rewrite Hl; right; assumption).
      exact Hmiss. }
  rewrite (send_file_head_found env req p f s Hs Hl Ho).
  destruct (BaseHandler.not_modified env req f).
  - split; [apply buffer_after_head; assumption|]. left.
    split; [reflexivity|].
    apply replied_after_head; [assumption | apply reply_not_modified].
  - split; [apply buffer_after_head; assumption|]. right.
    exists (file_head env p f), (file_content f).
    split; [reflexivity|]. split; [apply head_of_file; assumption|].
    apply wfile_after_head. assumption.
Qed.

Lemma list_directory_form p s :
  quiet s ->
  head_sent env req (BaseHandler.list_directory env req
               (ChatbotRequestHandler.end_headers req) p s).
Proof.
  intros Hq. rewrite list_directory_run.
  destruct (listing env p (path req)) as [page|] eqn:Hl.
  - split; [apply buffer_after_head; assumption|]. right.
    exists (listing_head env page), page.
    split; [reflexivity|]. split; [eapply head_of_listing; eassumption|].
    apply wfile_after_head. assumption.
  - split; [apply buffer_after_error; assumption|]. left.
    split; [reflexivity|]. apply replied_after_error; [assumption|reflexivity].
Qed.

Lemma send_head_form s :
  quiet s ->
  head_sent env req
    (BaseHandler.send_head env req (ChatbotRequestHandler.end_headers req) s).
Proof.
  intros Hq. unfold BaseHandler.send_head.
  destruct (BaseHandler.isdir env _).
  2: apply send_file_head_form; assumption.
  cbv zeta.
  destruct (negb _).
  { fold (with_slash env (path req)). rewrite redirect_run.
    split; [apply buffer_after_head; assumption|]. left.
    split; [reflexivity|].
    apply replied_after_head; [assumption | apply reply_redirect]. }
  destruct (BaseHandler.isfile env _).
  { apply send_file_head_form; assumption. }
  destruct (BaseHandler.isfile env _).
  { apply send_file_head_form; assumption. }
  apply list_directory_form; assumption.
Qed.

Lemma body_part_not_head b :
  String.eqb (command req) "HEAD" = false -> body_part req b = [Data b].
Proof. intros H. unfold body_part. rewrite H. reflexivity. Qed.

Lemma body_part_head b :
  String.eqb (command req) "HEAD" = true -> body_part req b = [].
Proof. intros H. unfold body_part. rewrite H. reflexivity. Qed.

Lemma do_GET_form s :
  quiet s -> String.eqb (command req) "HEAD" = false ->
  fst (ChatbotRequestHandler.do_GET env req s) = Returns tt /\
  replied env req (wfile (snd (ChatbotRequestHandler.do_GET env req s))).
Proof.
  intros Hq Hc.
  destruct (send_head_form s Hq)
    as (Hb & [(Ha & Hr) | (h & b & Ha & Hh & Hw)]);
    unfold ChatbotRequestHandler.do_GET, BaseHandler.do_GET; rewrite bind_eq;
    destruct (BaseHandler.send_head env req _ s) as [o s'];
    cbn [fst snd] in *; subst o.
  - split; [reflexivity|]. exact Hr.
  - unfold wfile_write, modify. simpl_state. rewrite Hw.
    split; [reflexivity|]. exists h, (body_part req b).
    split; [apply reply_content; assumption|].
    rewrite body_part_not_head by assumption. reflexivity.
Qed.

Lemma do_HEAD_form s :
  quiet s -> String.eqb (command req) "HEAD" = true ->
  fst (ChatbotRequestHandler.do_HEAD env req s) = Returns tt /\
  replied env req (wfile (snd (ChatbotRequestHandler.do_HEAD env req s))).
Proof.
  intros Hq Hc.
  destruct (send_head_form s Hq)
    as (Hb & [(Ha & Hr) | (h & b & Ha & Hh & Hw)]);
    unfold ChatbotRequestHandler.do_HEAD, BaseHandler.do_HEAD; rewrite bind_eq;
    destruct (BaseHandler.send_head env req _ s) as [o s'];
    cbn [fst snd] in *; subst o.
  - split; [reflexivity|]. exact Hr.
  - unfold ret. simpl_state. rewrite Hw. split; [reflexivity|].
    exists h, (body_part req b).
    split; [apply reply_content; assumption|].
    rewrite body_part_head by assumption. rewrite app_nil_r. reflexivity.
Qed.

Lemma replied_caught e s :
  quiet s -> command req = "POST" ->
  (fst (caught env req e s) = Returns tt /\
   replied env req (wfile (snd (caught env req e s)))) \/
  silent (caught env req e s).
Proof.
  intros Hq Hc. unfold caught.
  destruct (isinstance e ConnectionError).
  { left. split; [reflexivity|].
    apply replied_after_error; [assumption|reflexivity]. }
  destruct (isinstance e Exception) eqn:He.
  - left. split; [reflexivity|].
    apply replied_after_error; [assumption|reflexivity].
  - right. split; [exists e; split; [reflexivity|assumption]|]. apply Hq.
Qed.

Lemma replied_proxy s :
  quiet s -> command req = "POST" ->
  (fst (proxy_result env req s) = Returns tt /\
   replied env req (wfile (snd (proxy_result env req s)))) \/
  silent (proxy_result env req s).
Proof.
  intros Hq Hc. unfold proxy_result.
  destruct (before_call env req (rfile s)) as [n|e].
  2:{ apply replied_caught; assumption. }
  destruct (requests_post env (proxy_call n (rfile s))) as [up|e].
  2:{ apply replied_caught; [apply quiet_after_post|]; assumption. }
  left. split; [reflexivity|]. destruct Hq as (Hb & Hw).
  unfold after_relay. simpl_state. rewrite Hb, Hw. cbn [app].
  eexists _, _. split; [apply (reply_relay env req up Hc)|reflexivity].
Qed.

(** Whatever the request, the handler leaves one reply of a known form,
    or was interrupted before writing anything. *)
Lemma handle_forms sent :
  (fst (handle env req sent) = Returns tt /\
   replied env req (wfile (snd (handle env req sent)))) \/
  silent (handle env req sent).
Proof.
  unfold handle, ChatbotRequestHandler.handle_one_request.
  pose proof (quiet_fresh sent) as Hq.
  destruct (String.eqb (command req) "GET") eqn:Hget.
  { left. apply do_GET_form; [assumption|].
    apply String.eqb_eq in Hget. rewrite Hget. reflexivity. }
  destruct (String.eqb (command req) "HEAD") eqn:Hhead.
  { left. apply do_HEAD_form; assumption. }
  destruct (String.eqb (command req) "POST") eqn:Hpost.
  { unfold ChatbotRequestHandler.do_POST.
    destruct (String.eqb (path req) "/api/track-order").
    - apply String.eqb_eq in Hpost. rewrite proxy_run.
      apply replied_proxy; assumption.
    - left. rewrite send_error_run by reflexivity.
      split; [reflexivity|].
      apply replied_after_error; [assumption|reflexivity]. }
  destruct (String.eqb (command req) "OPTIONS") eqn:Hopt.
  { left. rewrite do_OPTIONS_run. split; [reflexivity|].
    apply replied_after_head; [assumption|].
    apply reply_options. apply String.eqb_eq. assumption. }
  left. rewrite send_error_run by reflexivity.
  split; [reflexivity|]. apply replied_after_error; [assumption|reflexivity].
Qed.

(** Every form has a head that ends with the CORS origin, and then only
    data. *)
Lemma reply_cors h rest :
  reply env req h rest ->
  cors_head h /\ exists chunks, rest = map Data chunks.
Proof.
  intros Hr.
  assert (Hbody : forall b, exists chunks, body_part req b = map Data chunks).
  { intros b. unfold body_part. destruct (String.eqb (command req) "HEAD").
    - exists []. reflexivity.
    - exists [b]. reflexivity. }
  destruct Hr as [code message Hc | h b Hcont | | | Ho | up Hp].
  - split; [|apply Hbody].
    eexists _, _, _, [_; _; _; _; _]. reflexivity.
  - split; [|apply Hbody].
    destruct Hcont.
    + eexists _, _, _, [_; _; _; _; _]. reflexivity.
    + eexists _, _, _, [_; _; _; _]. reflexivity.
  - split; [|exists []; reflexivity].
    eexists _, _, _, [_; _]. reflexivity.
  - split; [|exists []; reflexivity].
    eexists _, _, _, [_; _; _; _]. reflexivity.
  - split; [|exists []; reflexivity].
    eexists _, _, _, [_; _; _; _; _]. reflexivity.
  - split; [|exists [content up]; reflexivity].
    eexists _, _, _, [_; _; _; _; _; _]. reflexivity.
Qed.


(** To a request of version HTTP/0.9 no head is sent: there is no
    response in the sense of [response_of]. *)
Lemma replied_simple w :
  versioned req = false -> replied env req w -> response_of w = None.
Proof.
  intros Hv (h & rest & Hr & ->).
  destruct (reply_cors h rest Hr) as (_ & chunks & ->).
  rewrite head_part_simple by assumption. cbn [app].
  destruct chunks; reflexivity.
Qed.

End Forms.

(** ** What the replying methods leave alone *)

Lemma kept_refl s : kept s s.
Proof. repeat split; auto. Qed.

Lemma kept_trans s1 s2 s3 : kept s1 s2 -> kept s2 s3 -> kept s1 s3.
Proof.
  intros (A1 & A2 & A3 & A4) (B1 & B2 & B3 & B4).
  repeat split; try congruence. auto.
Qed.

Lemma replies_only_ret {A} (a : A) : replies_only (ret a).
Proof. intros s. apply kept_refl. Qed.

Lemma replies_only_bind {A B} (m : M A) (k : A -> M B) :
  replies_only m -> (forall a, replies_only (k a)) -> replies_only (bind m k).
Proof.
  intros Hm Hk s. rewrite bind_eq. specialize (Hm s).
  destruct (m s) as [[a|e] s']; cbn [snd] in *.
  - eapply kept_trans; [exact Hm | apply Hk].
  - exact Hm.
Qed.

Lemma replies_only_wfile_write b : replies_only (wfile_write b).
Proof. intros s. repeat split; auto. Qed.

Lemma kept_after_error env req code message s :
  kept s (after_error env req code message [] s).
Proof.
  unfold after_error. repeat split; simpl_state; auto. apply app_nil_r.
Qed.

Lemma kept_after_head req code lines s : kept s (after_head req code lines s).
Proof. unfold after_head. repeat split; simpl_state; auto. Qed.

Section RepliesOnly.
Variable env : environment.
Variable req : request.

Lemma replies_only_send_error code message :
  has_body code = true ->
  replies_only (ChatbotRequestHandler.send_error env req code (Some message)).
Proof.
  intros H s. rewrite send_error_run by assumption.
  apply kept_after_error.
Qed.

Lemma replies_only_send_file_head p :
  replies_only (BaseHandler.send_file_head env req
                  (ChatbotRequestHandler.end_headers req) p).
Proof.
  intros s.
  destruct (lookup env p) as [[f|]|] eqn:Hl.
  2,3: rewrite send_file_head_missing by (rewrite Hl; exact I);
       apply kept_after_error.
  destruct (endswith_slash p) eqn:Hs.
  { rewrite send_file_head_missing by (rewrite Hl; left; exact Hs).
    apply kept_after_error. }
  destruct (openable f) eqn:Ho.
  2:{ rewrite send_file_head_missing by (rewrite Hl; right; assumption).
      apply kept_after_error. }
  rewrite (send_file_head_found env req p f s Hs Hl Ho).
  destruct (BaseHandler.not_modified env req f); apply kept_after_head.
Qed.

Lemma replies_only_list_directory p :
  replies_only (BaseHandler.list_directory env req
                  (ChatbotRequestHandler.end_headers req) p).
Proof.
  intros s. rewrite list_directory_run.
  destruct (listing env p (path req));
    [apply kept_after_head | apply kept_after_error].
Qed.

Lemma replies_only_send_head :
  replies_only (BaseHandler.send_head env req
                  (ChatbotRequestHandler.end_headers req)).
Proof.
  intros s. unfold BaseHandler.send_head.
  destruct (BaseHandler.isdir env _); [|apply replies_only_send_file_head].
  cbv zeta.
  destruct (negb _).
  { fold (with_slash env (path req)). rewrite redirect_run.
    apply kept_after_head. }
  destruct (BaseHandler.isfile env _); [apply replies_only_send_file_head|].
  destruct (BaseHandler.isfile env _); [apply replies_only_send_file_head|].
  apply replies_only_list_directory.
Qed.

Lemma replies_only_do_GET : replies_only (ChatbotRequestHandler.do_GET env req).
Proof.
  unfold ChatbotRequestHandler.do_GET, BaseHandler.do_GET.
  apply replies_only_bind; [apply replies_only_send_head|].
  intros [b|]; [apply replies_only_wfile_write | apply replies_only_ret].
Qed.

Lemma replies_only_do_HEAD : replies_only (ChatbotRequestHandler.do_HEAD env req).
Proof.
  unfold ChatbotRequestHandler.do_HEAD, BaseHandler.do_HEAD.
  apply replies_only_bind; [apply replies_only_send_head|].
  intros ?. apply replies_only_ret.
Qed.

Lemma replies_only_do_OPTIONS :
  replies_only (ChatbotRequestHandler.do_OPTIONS env req).
Proof. intros s. rewrite do_OPTIONS_run. apply kept_after_head. Qed.

End RepliesOnly.

Lemma handle_kept_elsewhere env req sent :
  command req <> "POST" \/ path req <> "/api/track-order" ->
  kept (fresh sent) (snd (handle env req sent)).
Proof.
  intros H. unfold handle, ChatbotRequestHandler.handle_one_request.
  destruct (String.eqb (command req) "GET").
  { apply replies_only_do_GET. }
  destruct (String.eqb (command req) "HEAD").
  { apply replies_only_do_HEAD. }
  destruct (String.eqb (command req) "POST") eqn:Hpost.
  { unfold ChatbotRequestHandler.do_POST.
    destruct (String.eqb (path req) "/api/track-order") eqn:Hpath.
    - apply String.eqb_eq in Hpost, Hpath. destruct H; contradiction.
    - apply replies_only_send_error. reflexivity. }
  destruct (String.eqb (command req) "OPTIONS").
  { apply replies_only_do_OPTIONS. }
  apply replies_only_send_error. reflexivity.
Qed.

(** The state [handle_one_request] ends in is the proxy's, or untouched. *)
Lemma handle_proxy_or_kept env req sent :
  (command req = "POST" /\ path req = "/api/track-order" /\
   handle env req sent = proxy_result env req (fresh sent)) \/
  kept (fresh sent) (snd (handle env req sent)).
Proof.
  destruct (String.eqb (command req) "POST") eqn:Hc.
  - destruct (String.eqb (path req) "/api/track-order") eqn:Hp.
    + left. apply String.eqb_eq in Hc, Hp.
      split; [assumption|]. split; [assumption|].
      apply handle_proxy; assumption.
    + right. apply handle_kept_elsewhere. right.
      apply String.eqb_neq. assumption.
  - right. apply handle_kept_elsewhere. left.
    apply String.eqb_neq. assumption.
Qed.

(** The proxy's part of the state, whichever way it ends. *)
Lemma caught_keeps env req e s :
  posted (snd (caught env req e s)) = posted s /\
  rfile (snd (caught env req e s)) = rfile s /\
  (close_connection s = true ->
   close_connection (snd (caught env req e s)) = true).
Proof.
  unfold caught.
  destruct (isinstance e ConnectionError); [repeat split|].
  destruct (isinstance e Exception); repeat split; auto.
Qed.

Lemma caught_prints env req e s :
  stdout (snd (caught env req e s)) =
  if isinstance e ConnectionError then stdout s
  else if isinstance e Exception then (stdout s ++ [proxy_error_line e])%list
  else stdout s.
Proof.
  unfold caught.
  destruct (isinstance e ConnectionError);
    [cbn [snd after_error stdout]; apply app_nil_r|].
  destruct (isinstance e Exception); reflexivity.
Qed.

(** ** Every reply with a head ends with the CORS origin *)




(** ** The claims about the proxy and the POST routes *)

(** Claim C7, as the code has it.  A POST request whose path is not
    [/api/track-order] gets the error page for 404 with the message "API
    endpoint not found", and no call is made to the backend; when the
    request version is not HTTP/0.9 the page comes with the status line
    404 and that message as reason phrase, the whole being the fixed
    error reply for that code and message. *)
Theorem post_elsewhere_not_found env req sent :
  command req = "POST" ->
  path req <> "/api/track-order" ->
  fst (handle env req sent) = Returns tt /\
  posted (snd (handle env req sent)) = [] /\
  data_written (wfile (snd (handle env req sent))) =
    [error_page env 404 "API endpoint not found"] /\
  (exists before after,
     error_page env 404 "API endpoint not found" =
     encode (before ++ "<p>Message: API endpoint not found.</p>" ++ after)) /\
  (request_version req <> "HTTP/0.9" ->
   serve env req sent = Some (error_response env 404 "API endpoint not found")).
Proof.
  intros Hc Hp.
  assert (Hrun : handle env req sent =
            (Returns tt,
             after_error env req 404 "API endpoint not found" [] (fresh sent))).
  { unfold handle. rewrite (dispatch_post env req Hc).
    unfold ChatbotRequestHandler.do_POST.
    apply String.eqb_neq in Hp. rewrite Hp.
    apply send_error_run. reflexivity. }
  unfold serve. rewrite Hrun. cbn [fst snd].
  split; [reflexivity|]. split; [reflexivity|]. split.
  { apply data_after_error; [apply post_not_head; assumption | apply quiet_fresh]. }
  split.
  { apply (error_page_shows_message env 404 "API endpoint not found"). }
  intros Hv. apply serve_after_error;
    [apply versioned_true; assumption | apply post_not_head; assumption
     | apply quiet_fresh].
Qed.

(** Claim C10, as the code has it.  A POST request to [/api/track-order]
    whose [Content-Length] field is missing, or has a value [int] does
    not accept, gets the generic error page for 500; the exception is
    caught ([handle_one_request] returns), its text is printed, and the
    backend is not called.  When the request version is not HTTP/0.9 the
    page comes with the status line 500, the whole being the fixed error
    reply. *)
Theorem bad_content_length_500 env req sent :
  command req = "POST" ->
  path req = "/api/track-order" ->
  bad_content_length env req ->
  fst (handle env req sent) = Returns tt /\
  posted (snd (handle env req sent)) = [] /\
  stdout (snd (handle env req sent)) =
    [("Proxy error: " ++
      int_error_text env (Message.get "Content-Length" (headers req)))%string] /\
  data_written (wfile (snd (handle env req sent))) =
    [error_page env 500 "Internal server error"] /\
  (request_version req <> "HTTP/0.9" ->
   serve env req sent = Some (error_response env 500 "Internal server error")).
Proof.
  intros Hc Hp Hbad.
  destruct (bad_length_before_call env req sent Hbad)
    as (e & Hcall & Hce & Hex & Hstr).
  unfold serve. rewrite (handle_proxy env req sent Hc Hp).
  unfold proxy_result. cbn [fresh rfile]. rewrite Hcall.
  unfold caught. rewrite Hce, Hex. cbn [fst snd].
  split; [reflexivity|]. split; [reflexivity|]. split.
  { cbn [after_error stdout fresh app]. unfold proxy_error_line.
    rewrite Hstr. reflexivity. }
  split.
  { apply data_after_error; [apply post_not_head; assumption | apply quiet_fresh]. }
  intros Hv. apply serve_after_error;
    [apply versioned_true; assumption | apply post_not_head; assumption
     | apply quiet_fresh].
Qed.

(** The proxy once the request has reached the backend. *)
Lemma handle_reaches env req sent v n :
  command req = "POST" ->
  path req = "/api/track-order" ->
  reaches_backend env req sent v n ->
  handle env req sent =
  match requests_post env (proxy_call n sent) with
  | Returns up => (Returns tt, after_relay env req n up (fresh sent))
  | Raises e => caught env req e (after_post n (fresh sent))
  end.
Proof.
  intros Hc Hp Hr. rewrite (handle_proxy env req sent Hc Hp).
  unfold proxy_result. cbn [fresh rfile].
  rewrite (reaches_before_call env req sent v n Hr). reflexivity.
Qed.



(** Claim C6, as the code has it.  A POST request to [/api/track-order]
    that gets as far as the backend makes exactly one call: to
    [http://localhost:5000/api/track-order], with the bytes read from the
    client, the fixed field [Content-Type: application/json] (whatever the
    client declared) and a timeout of 10.  When the backend answers and
    the request version is not HTTP/0.9, its status code and content are
    relayed, and the only [Content-Type] of the reply is
    [application/json] (whatever the backend declared). *)
Theorem proxy_forwards_as_json env req sent v n :
  command req = "POST" ->
  path req = "/api/track-order" ->
  reaches_backend env req sent v n ->
  posted (snd (handle env req sent)) = [proxy_call n sent] /\
  forall up,
    requests_post env (proxy_call n sent) = Returns up ->
    request_version req <> "HTTP/0.9" ->
    exists r,
      serve env req sent = Some r /\
      status r = status_code up /\
      body r = content up /\
      forall value, In ("Content-Type", value) (response_headers r) <->
                    value = "application/json".
Proof.
  intros Hc Hp Hr. unfold serve.
  rewrite (handle_reaches env req sent v n Hc Hp Hr). split.
  - destruct (requests_post env (proxy_call n sent)) as [up|e];
      [reflexivity|].
    rewrite (proj1 (caught_keeps env req e _)). reflexivity.
  - intros up Hup Hv. apply versioned_true in Hv. rewrite Hup. cbn [snd].
    rewrite serve_after_relay by (assumption || apply quiet_fresh).
    eexists. split; [reflexivity|]. cbn.
    split; [reflexivity|]. split; [reflexivity|].
    intros value. split.
    + intros H. repeat (destruct H as [H|H]; [inversion H; try reflexivity|]).
      contradiction.
    + intros ->. right. right. left. reflexivity.
Qed.

(** Claim C1, as the code has it.  For a POST request to
    [/api/track-order] that the backend answers, with a request version
    other than HTTP/0.9, the reply has the backend's status code and its
    content as body, with [Content-Type: application/json] and the three
    CORS fields. *)
Theorem proxy_relays_upstream_response env req sent v n up :
  command req = "POST" ->
  path req = "/api/track-order" ->
  request_version req <> "HTTP/0.9" ->
  reaches_backend env req sent v n ->
  requests_post env (proxy_call n sent) = Returns up ->
  fst (handle env req sent) = Returns tt /\
  exists r,
    serve env req sent = Some r /\
    status r = status_code up /\
    body r = content up /\
    In json_content_type (response_headers r) /\
    In cors_origin (response_headers r) /\
    In cors_methods (response_headers r) /\
    In cors_allow_headers (response_headers r).
Proof.
  intros Hc Hp Hv Hr Hup. apply versioned_true in Hv.
  unfold serve. rewrite (handle_reaches env req sent v n Hc Hp Hr), Hup.
  split; [reflexivity|]. cbn [snd].
  rewrite serve_after_relay by (assumption || apply quiet_fresh).
  eexists. split; [reflexivity|]. cbn.
  unfold json_content_type, cors_origin, cors_methods, cors_allow_headers.
  intuition.
Qed.

(** ** Static files and the preflight *)

(** Claim C4, as the code has it.  An OPTIONS request, on any path and
    with a request version other than HTTP/0.9, is answered 200 with an
    empty body; the reply carries the three CORS fields with exactly the
    stated values, and beside them only the [Server] and [Date] fields
    that [send_response] adds to every reply. *)
Theorem options_preflight env req sent :
  command req = "OPTIONS" ->
  request_version req <> "HTTP/0.9" ->
  exists r,
    serve env req sent = Some r /\
    status r = 200 /\
    body r = [] /\
    In cors_origin (response_headers r) /\
    In cors_methods (response_headers r) /\
    In cors_allow_headers (response_headers r) /\
    forall k v, In (k, v) (response_headers r) ->
      In (k, v) [cors_origin; cors_methods; cors_allow_headers] \/
      k = "Server" \/ k = "Date".
Proof.
  intros Hc Hv. apply versioned_true in Hv.
  unfold serve, handle. rewrite (dispatch_options env req Hc).
  rewrite do_OPTIONS_run. cbn [snd].
  rewrite wfile_after_head by apply quiet_fresh.
  rewrite head_part_versioned by assumption.
  eexists. split; [reflexivity|]. cbn.
  unfold cors_origin, cors_methods, cors_allow_headers.
  repeat split; auto 10.
  intros k v H.
  repeat (destruct H as [H|H]; [inversion H; subst; auto 10|]).
  contradiction.
Qed.

Lemma do_GET_file env req p f sent :
  BaseHandler.send_head env req (ChatbotRequestHandler.end_headers req)
    (fresh sent) =
  BaseHandler.send_file_head env req (ChatbotRequestHandler.end_headers req)
    p (fresh sent) ->
  versioned req = true ->
  command req = "GET" ->
  endswith_slash p = false ->
  lookup env p = Some (RegularFile f) ->
  openable f = true ->
  exists r,
    response_of (wfile (snd (ChatbotRequestHandler.do_GET env req (fresh sent))))
      = Some r /\
    if BaseHandler.not_modified env req f
    then status r = 304 /\ body r = []
    else status r = 200 /\ body r = file_content f.
Proof.
  intros Hhead Hv Hc Hs Hl Ho.
  destruct (BaseHandler.not_modified env req f) eqn:Hn.
  - erewrite do_GET_run.
    2:{ rewrite Hhead, (send_file_head_found env req p f _ Hs Hl Ho), Hn.
        reflexivity. }
    cbn [snd]. rewrite wfile_after_head by apply quiet_fresh.
    rewrite head_part_versioned by assumption.
    eexists. split; [reflexivity|]. split; reflexivity.
  - erewrite do_GET_run.
    2:{ rewrite Hhead, (send_file_head_found env req p f _ Hs Hl Ho), Hn.
        reflexivity. }
    cbn [snd set_wfile wfile].
    rewrite wfile_after_head by apply quiet_fresh.
    rewrite head_part_versioned by assumption. cbn [app].
    erewrite response_of_head_body by reflexivity.
    eexists. split; [reflexivity|]. split; reflexivity.
Qed.



(** ** Starting the server *)

Lemma oserror_not_interrupt e :
  isinstance e OSError = true -> isinstance e KeyboardInterrupt = false.
Proof.
  unfold isinstance. destruct (exn_class_of e); vm_compute; congruence.
Qed.

(** Claim C9, as the code has it.  When the construction of the server
    raises an [OSError] (the port is taken), [main] prints one line, the
    "Port 8080 is already in use" text if [errno] is 48 and "Server
    error: ..." with the text of the error otherwise, and returns: the
    process exits with status 0. *)
Theorem bind_failure_is_reported w e :
  chdir w = None ->
  tcp_server w = Some e ->
  isinstance e OSError = true ->
  run_main w = (0, [os_error_line e]).
Proof.
  intros Hc Hb He. unfold run_main, main. rewrite Hc, Hb.
  rewrite (bind_returns _ _ _ _ _ (eq_refl : may_raise None (fresh []) = _)).
  erewrite try_except_raises by reflexivity.
  cbn [find_clause]. rewrite (oserror_not_interrupt e He), He.
  unfold os_error_line.
  destruct (match errno e with Some n => n =? 48 | None => false end);
    reflexivity.
Qed.

(** * Further properties of the handler and of [main] *)

(** X7.  A request that is not a POST to [/api/track-order] (static file,
    preflight, POST elsewhere, unsupported method) does not read the
    request body, prints nothing and does not call the backend. *)
Theorem only_the_proxy_reaches_out env req sent :
  command req <> "POST" \/ path req <> "/api/track-order" ->
  rfile (snd (handle env req sent)) = sent /\
  stdout (snd (handle env req sent)) = [] /\
  posted (snd (handle env req sent)) = [].
Proof.
  intros H. destruct (handle_kept_elsewhere env req sent H) as (A & B & C & _).
  auto.
Qed.

(** X6.  Whatever the request, the server calls the backend at most once
    (no retry), and the call it makes is the fixed one: POST to
    [http://localhost:5000/api/track-order] with [Content-Type:
    application/json], a timeout of 10 and a prefix of what the client
    sent. *)
Theorem at_most_one_fixed_call env req sent :
  posted (snd (handle env req sent)) = [] \/
  exists n, posted (snd (handle env req sent)) = [proxy_call n sent].
Proof.
  destruct (handle_proxy_or_kept env req sent)
    as [(_ & _ & ->) | (_ & _ & H & _)]; [|left; exact H].
  unfold proxy_result. cbn [fresh rfile].
  destruct (before_call env req sent) as [n|e].
  2:{ left. apply caught_keeps. }
  right. exists n.
  destruct (requests_post env (proxy_call n sent)) as [up|e]; [reflexivity|].
  rewrite (proj1 (caught_keeps env req e _)). reflexivity.
Qed.

(** X9.  No method asks to keep the connection: after every request
    [close_connection] is still set, so the connection serves one
    request. *)
Theorem connection_is_closed_after_each_request env req sent :
  close_connection (snd (handle env req sent)) = true.
Proof.
  destruct (handle_proxy_or_kept env req sent)
    as [(_ & _ & ->) | (_ & _ & _ & H)]; [|apply H; reflexivity].
  unfold proxy_result. cbn [fresh rfile].
  destruct (before_call env req sent) as [n|e].
  2:{ apply caught_keeps. reflexivity. }
  destruct (requests_post env (proxy_call n sent)) as [up|e]; [reflexivity|].
  apply caught_keeps. reflexivity.
Qed.

Lemma proxy_exception_of_result env req sent :
  stdout (snd (proxy_result env req (fresh sent))) =
  match proxy_exception env req sent with
  | Some e =>
      if isinstance e ConnectionError then []
      else if isinstance e Exception then [proxy_error_line e] else []
  | None => []
  end.
Proof.
  unfold proxy_result, proxy_exception. cbn [fresh rfile].
  destruct (before_call env req sent) as [n|e].
  2:{ rewrite caught_prints. reflexivity. }
  destruct (requests_post env (proxy_call n sent)) as [up|e]; [reflexivity|].
  rewrite caught_prints. reflexivity.
Qed.

(** X8.  The handler prints at most one line per request, and only in
    the proxy: the line is "Proxy error: " followed by the text of the
    exception that [int], [read] or [requests.post] raised, which is an
    [Exception] and no [ConnectionError]; the reply is then the 500 error
    reply (for a request version other than HTTP/0.9). *)
Theorem console_only_tells_proxy_errors env req sent :
  stdout (snd (handle env req sent)) = [] \/
  exists e,
    command req = "POST" /\ path req = "/api/track-order" /\
    proxy_exception env req sent = Some e /\
    isinstance e Exception = true /\
    isinstance e ConnectionError = false /\
    stdout (snd (handle env req sent)) = [("Proxy error: " ++ str e)%string] /\
    (request_version req <> "HTTP/0.9" ->
     serve env req sent = Some (error_response env 500 "Internal server error")).
Proof.
  destruct (handle_proxy_or_kept env req sent)
    as [(Hc & Hp & Hrun) | (_ & H & _)]; [|left; exact H].
  unfold serve. rewrite Hrun, proxy_exception_of_result.
  pose proof (post_not_head req Hc) as Hh.
  unfold proxy_result, proxy_exception. cbn [fresh rfile].
  assert (Hcaught : forall e s, quiet s ->
    isinstance e ConnectionError = false -> isinstance e Exception = true ->
    request_version req <> "HTTP/0.9" ->
    response_of (wfile (snd (caught env req e s))) =
    Some (error_response env 500 "Internal server error")).
  { intros e s Hq Hce Hex Hv. unfold caught. rewrite Hce, Hex. cbn [snd].
    apply serve_after_error; [apply versioned_true|..]; assumption. }
  destruct (before_call env req sent) as [n|e].
  - destruct (requests_post env (proxy_call n sent)) as [up|e];
      [left; reflexivity|].
    destruct (isinstance e ConnectionError) eqn:Hce; [left; reflexivity|].
    destruct (isinstance e Exception) eqn:Hex; [|left; reflexivity].
    right. exists e. repeat split; try assumption.
    intros Hv. apply Hcaught; try assumption.
    apply quiet_after_post, quiet_fresh.
  - destruct (isinstance e ConnectionError) eqn:Hce; [left; reflexivity|].
    destruct (isinstance e Exception) eqn:Hex; [|left; reflexivity].
    right. exists e. repeat split; try assumption.
    intros Hv. apply Hcaught; try assumption. apply quiet_fresh.
Qed.

(** Field names are closed strings: their comparisons compute. *)
Ltac eval_names :=
  repeat match goal with
  | |- context [String.eqb (lower ?a) (lower ?b)] =>
      let r := eval vm_compute in (String.eqb (lower a) (lower b)) in
      change (String.eqb (lower a) (lower b)) with r
  end.

Ltac eval_get :=
  cbn [header_fields Message.get fst snd response_headers body status reason];
  eval_names; cbv iota.

Section Shapes.
Variable env : environment.
Variable req : request.

Lemma reply_declares_length h rest r v :
  String.eqb (command req) "HEAD" = false ->
  reply env req h rest ->
  response_of (Head h :: rest) = Some r ->
  Message.get "Content-Length" (response_headers r) = Some v ->
  v = str_int (Z.of_nat (List.length (body r))).
Proof.
  intros Hh Hw.
  destruct Hw as [code message Hc | h b Hcont | | | Ho | up Hp];
    unfold body_part; rewrite ?Hh; cbv iota.
  - erewrite response_of_head_body by reflexivity.
    intros Hr; apply some_eq in Hr; subst r. eval_get. congruence.
  - destruct Hcont as [p f Hl | p q page Hl].
    + erewrite response_of_head_body by reflexivity.
      intros Hr; apply some_eq in Hr; subst r. eval_get. congruence.
    + erewrite response_of_head_body by reflexivity.
      intros Hr; apply some_eq in Hr; subst r. eval_get. congruence.
  - erewrite response_of_head by reflexivity.
    intros Hr; apply some_eq in Hr; subst r. eval_get. discriminate.
  - erewrite response_of_head by reflexivity.
    intros Hr; apply some_eq in Hr; subst r. eval_get.
    intros Hv; apply some_eq in Hv; subst v. reflexivity.
  - erewrite response_of_head by reflexivity.
    intros Hr; apply some_eq in Hr; subst r. eval_get. discriminate.
  - erewrite response_of_head_body by reflexivity.
    intros Hr; apply some_eq in Hr; subst r. eval_get. discriminate.
Qed.




End Shapes.

(** X10.  Unless the method is HEAD, a reply that declares a
    [Content-Length] declares the length of its body (file replies,
    directory listings, redirects and error replies declare one; relayed
    replies, preflight replies and 304 do not). *)
Theorem declared_length_is_body_length env req sent r v :
  command req <> "HEAD" ->
  serve env req sent = Some r ->
  Message.get "Content-Length" (response_headers r) = Some v ->
  v = str_int (Z.of_nat (List.length (body r))).
Proof.
  intros Hh. apply String.eqb_neq in Hh. unfold serve.
  destruct (handle_forms env req sent) as [(_ & Hw) | (_ & Hw)].
  - destruct (versioned req) eqn:Hv.
    + destruct Hw as (h & rest & Hr & ->).
      rewrite head_part_versioned by assumption.
      apply (reply_declares_length env req h rest r v Hh Hr).
    + rewrite (replied_simple env req _ Hv Hw). discriminate.
  - rewrite Hw. discriminate.
Qed.


(** X12.  A method other than GET, HEAD, POST and OPTIONS (the handler
    has no [do_] method for it) gets the error page for 501 whose message
    names the method as [repr] writes it, and the handler returns; with a
    request version other than HTTP/0.9 the reply is the 501 error
    reply. *)
Theorem unsupported_method_not_implemented env req sent :
  command req <> "GET" -> command req <> "HEAD" ->
  command req <> "POST" -> command req <> "OPTIONS" ->
  fst (handle env req sent) = Returns tt /\
  data_written (wfile (snd (handle env req sent))) =
    [error_page env 501
       ("Unsupported method (" ++ repr env (command req) ++ ")")] /\
  (request_version req <> "HTTP/0.9" ->
   serve env req sent =
     Some (error_response env 501
             ("Unsupported method (" ++ repr env (command req) ++ ")"))).
Proof.
  intros H1 H2 H3 H4. apply String.eqb_neq in H1, H2, H3, H4.
  unfold serve, handle.
  rewrite (dispatch_unsupported env req H1 H2 H3 H4).
  rewrite send_error_run by reflexivity. cbn [fst snd].
  split; [reflexivity|]. split.
  - apply data_after_error; [assumption | apply quiet_fresh].
  - intros Hv. apply serve_after_error;
      [apply versioned_true; assumption | assumption | apply quiet_fresh].
Qed.

(** X13.  The preflight reply (request version other than HTTP/0.9)
    carries [Access-Control-Allow-Origin] twice: [do_OPTIONS] sends it
    and [end_headers] sends it again. *)
Theorem preflight_sends_origin_twice env req sent :
  command req = "OPTIONS" ->
  request_version req <> "HTTP/0.9" ->
  exists r, serve env req sent = Some r /\ origin_count r = 2%nat.
Proof.
  intros Hc Hv. apply versioned_true in Hv.
  unfold serve, handle. rewrite (dispatch_options env req Hc).
  rewrite do_OPTIONS_run. cbn [snd].
  rewrite wfile_after_head by apply quiet_fresh.
  rewrite head_part_versioned by assumption.
  erewrite response_of_head by reflexivity.
  eexists. split; [reflexivity|]. reflexivity.
Qed.

(** X14.  A reply to a proxied POST (request version other than
    HTTP/0.9) carries [Access-Control-Allow-Origin] twice when it relays
    the backend's answer, whatever the status of that answer, and once
    when it is the 503 or 500 error reply for a call that raised. *)
Theorem proxy_origin_count env req sent v n :
  command req = "POST" ->
  path req = "/api/track-order" ->
  request_version req <> "HTTP/0.9" ->
  reaches_backend env req sent v n ->
  (forall up,
     requests_post env (proxy_call n sent) = Returns up ->
     exists r, serve env req sent = Some r /\
               status r = status_code up /\ origin_count r = 2%nat) /\
  (forall e,
     requests_post env (proxy_call n sent) = Raises e ->
     isinstance e Exception = true ->
     exists r, serve env req sent = Some r /\
               (status r = 503 \/ status r = 500) /\ origin_count r = 1%nat).
Proof.
  intros Hc Hp Hv Hr. apply versioned_true in Hv.
  pose proof (post_not_head req Hc) as Hh.
  unfold serve. rewrite (handle_reaches env req sent v n Hc Hp Hr). split.
  - intros up ->. cbn [snd].
    rewrite serve_after_relay by (assumption || apply quiet_fresh).
    eexists. split; [reflexivity|]. split; reflexivity.
  - intros e -> Hex. unfold caught. rewrite Hex.
    destruct (isinstance e ConnectionError); cbn [snd];
      rewrite serve_after_error
        by (assumption || apply quiet_after_post, quiet_fresh);
      eexists; (split; [reflexivity|]); split; try reflexivity.
    + left. reflexivity.
    + right. reflexivity.
Qed.


Lemma endswith_slash_append a c b :
  endswith_slash (a ++ String c b) = endswith_slash (String c b).
Proof.
  induction a as [|x a IH]; [reflexivity|].
  cbn [append]. rewrite <- IH.
  destruct a; reflexivity.
Qed.

Lemma path_join_index p name c rest :
  name = String c rest ->
  endswith_slash name = false ->
  endswith_slash (path_join p name) = false.
Proof.
  intros -> H. unfold path_join.
  destruct (String.eqb p "" || endswith_slash p).
  - rewrite endswith_slash_append. exact H.
  - change ("/" ++ String c rest)%string with (String "/" (String c rest)).
    rewrite endswith_slash_append. exact H.
Qed.

(** X16.  A GET for a directory whose URL path does not end with a slash
    (request version other than HTTP/0.9) is answered 301 with no body;
    the [Location] is the URL of the request put together again by
    [urlunsplit] with a slash added to its path. *)
Theorem directory_without_slash_redirects env req sent :
  command req = "GET" ->
  request_version req <> "HTTP/0.9" ->
  lookup env (translate_path env (path req)) = Some Directory ->
  endswith_slash (url_path (urlsplit env (path req))) = false ->
  exists r,
    serve env req sent = Some r /\
    status r = 301 /\
    Message.get "Location" (response_headers r)
      = Some (urlunsplit env
                (mkParts (url_scheme (urlsplit env (path req)))
                         (url_netloc (urlsplit env (path req)))
                         (url_path (urlsplit env (path req)) ++ "/")
                         (url_query (urlsplit env (path req)))
                         (url_fragment (urlsplit env (path req))))) /\
    Message.get "Content-Length" (response_headers r) = Some "0" /\
    body r = [].
Proof.
  intros Hc Hv Hd Hs. apply versioned_true in Hv.
  unfold serve, handle. rewrite (dispatch_get env req Hc).
  erewrite do_GET_run.
  2:{ unfold BaseHandler.send_head.
      rewrite (isdir_directory env _ Hd). cbv zeta. rewrite Hs. cbn [negb].
      fold (with_slash env (path req)). apply redirect_run. }
  cbn [snd]. rewrite wfile_after_head by apply quiet_fresh.
  rewrite head_part_versioned by assumption.
  erewrite response_of_head by reflexivity.
  eexists. split; [reflexivity|]. repeat split.
Qed.

(** X17.  A GET for a directory (URL path ending with a slash, request
    version other than HTTP/0.9) serves [index.html] of that directory
    when it is a file, and [index.htm] when only that one is, as it
    serves any file that can be opened: 200 with its bytes, or 304
    without body when the browser's copy is fresh. *)
Theorem directory_serves_its_index env req sent :
  command req = "GET" ->
  request_version req <> "HTTP/0.9" ->
  lookup env (translate_path env (path req)) = Some Directory ->
  endswith_slash (url_path (urlsplit env (path req))) = true ->
  (forall f,
     lookup env (path_join (translate_path env (path req)) "index.html")
       = Some (RegularFile f) ->
     openable f = true ->
     exists r, serve env req sent = Some r /\
               if BaseHandler.not_modified env req f
               then status r = 304 /\ body r = []
               else status r = 200 /\ body r = file_content f) /\
  (forall g,
     BaseHandler.isfile env
       (path_join (translate_path env (path req)) "index.html") = false ->
     lookup env (path_join (translate_path env (path req)) "index.htm")
       = Some (RegularFile g) ->
     openable g = true ->
     exists r, serve env req sent = Some r /\
               if BaseHandler.not_modified env req g
               then status r = 304 /\ body r = []
               else status r = 200 /\ body r = file_content g).
Proof.
  intros Hc Hv Hd Hs. apply versioned_true in Hv.
  unfold serve, handle. rewrite (dispatch_get env req Hc).
  split.
  - intros f Hl Ho.
    apply (do_GET_file env req
             (path_join (translate_path env (path req)) "index.html") f sent);
      try assumption.
    + unfold BaseHandler.send_head.
      rewrite (isdir_directory env _ Hd). cbv zeta. rewrite Hs. cbn [negb].
      rewrite (isfile_regular env _ f Hl). reflexivity.
    + exact (path_join_index _ "index.html" "i" "ndex.html" eq_refl eq_refl).
  - intros g Hno Hl Ho.
    apply (do_GET_file env req
             (path_join (translate_path env (path req)) "index.htm") g sent);
      try assumption.
    + unfold BaseHandler.send_head.
      rewrite (isdir_directory env _ Hd). cbv zeta. rewrite Hs. cbn [negb].
      rewrite Hno, (isfile_regular env _ g Hl). reflexivity.
    + exact (path_join_index _ "index.htm" "i" "ndex.htm" eq_refl eq_refl).
Qed.

(** X18.  A GET for a directory with neither index file (request version
    other than HTTP/0.9) is answered with the listing page (200), or with
    404 "No permission to list directory" when the directory cannot be
    listed. *)
Theorem directory_without_index_is_listed env req sent :
  command req = "GET" ->
  request_version req <> "HTTP/0.9" ->
  lookup env (translate_path env (path req)) = Some Directory ->
  endswith_slash (url_path (urlsplit env (path req))) = true ->
  BaseHandler.isfile env
    (path_join (translate_path env (path req)) "index.html") = false ->
  BaseHandler.isfile env
    (path_join (translate_path env (path req)) "index.htm") = false ->
  match listing env (translate_path env (path req)) (path req) with
  | Some page =>
      exists r, serve env req sent = Some r /\
                status r = 200 /\ body r = page
  | None =>
      serve env req sent =
        Some (error_response env 404 "No permission to list directory")
  end.
Proof.
  intros Hc Hv Hd Hs H1 H2. apply versioned_true in Hv.
  unfold serve, handle. rewrite (dispatch_get env req Hc).
  assert (Hhead :
    BaseHandler.send_head env req (ChatbotRequestHandler.end_headers req)
      (fresh sent) =
    BaseHandler.list_directory env req (ChatbotRequestHandler.end_headers req)
      (translate_path env (path req)) (fresh sent)).
  { unfold BaseHandler.send_head.
    rewrite (isdir_directory env _ Hd). cbv zeta. rewrite Hs. cbn [negb].
    rewrite H1, H2. reflexivity. }
  rewrite list_directory_run in Hhead.
  destruct (listing env (translate_path env (path req)) (path req))
    as [page|].
  - rewrite (do_GET_run env req _ _ _ Hhead). cbn [snd set_wfile wfile].
    rewrite wfile_after_head by apply quiet_fresh.
    rewrite head_part_versioned by assumption. cbn [app].
    erewrite response_of_head_body by reflexivity.
    eexists. split; [reflexivity|]. split; reflexivity.
  - rewrite (do_GET_run env req _ _ _ Hhead). cbn [snd].
    apply serve_after_error;
      [assumption | rewrite Hc; reflexivity | apply quiet_fresh].
Qed.

Lemma main_started w :
  chdir w = None -> tcp_server w = None ->
  main w (fresh []) =
  match
    find_clause (serve_forever w)
      [(KeyboardInterrupt, fun _ : exn => print (nl ++ "🛑 Server stopped."));
       (OSError,
         fun e : exn =>
           if match errno e with Some n => n =? 48 | None => false end then
             print ("❌ Port " ++ str_int PORT
                    ++ " is already in use. Try a different port.")
           else print ("❌ Server error: " ++ str e))]
  with
  | Some h => h (serve_forever w) (set_stdout banner (fresh []))
  | None => (Raises (serve_forever w), set_stdout banner (fresh []))
  end.
Proof.
  intros Hc Hb. unfold main. rewrite Hc, Hb.
  rewrite (bind_returns _ _ _ _ _ (eq_refl : may_raise None (fresh []) = _)).
  erewrite try_except_raises by reflexivity. reflexivity.
Qed.

(** X19.  When the server starts and is then interrupted (Ctrl-C),
    [main] has printed the banner, prints the "Server stopped." line and
    returns: exit status 0. *)
Theorem interrupted_server_stops_cleanly w :
  chdir w = None ->
  tcp_server w = None ->
  isinstance (serve_forever w) KeyboardInterrupt = true ->
  run_main w = (0, (banner ++ [stopped_line])%list).
Proof.
  intros Hc Hb Hk. unfold run_main. rewrite (main_started w Hc Hb).
  cbn [find_clause]. rewrite Hk. reflexivity.
Qed.

(** X20.  The process exits with status 0 exactly when [os.chdir]
    succeeded and the exception that ended the [try] block (from binding
    the port or from serving) is a [KeyboardInterrupt] or an [OSError];
    anything else escapes [main]. *)
Theorem main_exit_status w :
  fst (run_main w) = 0 <->
  chdir w = None /\
  (isinstance (ending w) KeyboardInterrupt = true \/
   isinstance (ending w) OSError = true).
Proof.
  unfold run_main, ending.
  destruct (chdir w) as [e0|] eqn:Hc.
  { unfold main. rewrite Hc. cbn. split; [discriminate|].
    intros (H & _). discriminate. }
  destruct (tcp_server w) as [e|] eqn:Hb.
  - unfold main. rewrite Hc, Hb.
    rewrite (bind_returns _ _ _ _ _ (eq_refl : may_raise None (fresh []) = _)).
    erewrite try_except_raises by reflexivity.
    cbn [find_clause].
    destruct (isinstance e KeyboardInterrupt); [cbn; tauto|].
    destruct (isinstance e OSError).
    + destruct (match errno e with Some n => n =? 48 | None => false end);
        cbn; tauto.
    + cbn. split; [discriminate|]. intros (_ & [H|H]); discriminate.
  - rewrite (main_started w Hc Hb). cbn [find_clause].
    destruct (isinstance (serve_forever w) KeyboardInterrupt); [cbn; tauto|].
    destruct (isinstance (serve_forever w) OSError).
    + destruct (match errno (serve_forever w) with
                | Some n => n =? 48 | None => false end); cbn; tauto.
    + cbn. split; [discriminate|]. intros (_ & [H|H]); discriminate.
Qed.



(** X3.  A [Content-Length] that [int] accepts but [read] does not (below
    -1, or above [sys.maxsize]) gets the error page for 500; the handler
    returns, the backend is not called and the request body is not read.
    With a request version other than HTTP/0.9 the reply is the 500
    error reply. *)
Theorem unreadable_length_is_refused env req sent v n :
  command req = "POST" ->
  path req = "/api/track-order" ->
  Message.get "Content-Length" (headers req) = Some v ->
  int_str (int_max_str_digits env) v = Some n ->
  n < -1 \/ sys_maxsize env < n ->
  fst (handle env req sent) = Returns tt /\
  posted (snd (handle env req sent)) = [] /\
  rfile (snd (handle env req sent)) = sent /\
  (request_version req <> "HTTP/0.9" ->
   serve env req sent = Some (error_response env 500 "Internal server error")).
Proof.
  intros Hc Hp Hget Hint Hn.
  pose proof (post_not_head req Hc) as Hh.
  assert (Hcall : exists e,
            before_call env req sent = Raises e /\
            isinstance e ConnectionError = false /\
            isinstance e Exception = true).
  { unfold before_call. rewrite Hget, Hint.
    unfold ChatbotRequestHandler.read_error.
    destruct ((sys_maxsize env <? n) || (n <? - sys_maxsize env - 1)) eqn:Ho.
    - eexists. repeat split.
    - assert (Hlt : (n <? -1) = true).
      { apply Z.ltb_lt. apply orb_false_iff in Ho. destruct Ho as (Ho & _).
        apply Z.ltb_ge in Ho. lia. }
      rewrite Hlt. eexists. repeat split. }
  destruct Hcall as (e & Hcall & Hce & Hex).
  unfold serve. rewrite (handle_proxy env req sent Hc Hp).
  unfold proxy_result. cbn [fresh rfile]. rewrite Hcall.
  unfold caught. rewrite Hce, Hex. cbn [fst snd].
  repeat split.
  intros Hv. apply serve_after_error;
    [apply versioned_true; assumption | assumption | apply quiet_fresh].
Qed.

(** X4.  What the call to the backend raises that is no [Exception]
    (Ctrl-C) is caught by neither clause: it leaves the handler, with the
    call made, nothing printed and nothing written to the client. *)
Theorem interrupt_during_the_call_escapes env req sent v n e :
  command req = "POST" ->
  path req = "/api/track-order" ->
  reaches_backend env req sent v n ->
  requests_post env (proxy_call n sent) = Raises e ->
  isinstance e Exception = false ->
  handle env req sent = (Raises e, after_post n (fresh sent)).
Proof.
  intros Hc Hp Hr Hup He.
  rewrite (handle_reaches env req sent v n Hc Hp Hr), Hup.
  unfold caught.
  destruct (isinstance e ConnectionError) eqn:Hce.
  - apply connection_error_is_exception in Hce. congruence.
  - rewrite He. reflexivity.
Qed.

(** X5.  No exception of [requests] escapes the proxy: every class of
    [requests.exceptions] is an [Exception], so the handler returns, and
    the client gets 503 or 500 (with a request version other than
    HTTP/0.9). *)
Theorem requests_failures_never_escape env req sent v n e :
  command req = "POST" ->
  path req = "/api/track-order" ->
  reaches_backend env req sent v n ->
  requests_post env (proxy_call n sent) = Raises e ->
  isinstance e RequestException = true ->
  fst (handle env req sent) = Returns tt /\
  (request_version req <> "HTTP/0.9" ->
   exists r, serve env req sent = Some r /\ (status r = 503 \/ status r = 500)).
Proof.
  intros Hc Hp Hr Hup He.
  apply request_exception_is_exception in He.
  pose proof (post_not_head req Hc) as Hh.
  unfold serve. rewrite (handle_reaches env req sent v n Hc Hp Hr), Hup.
  unfold caught. rewrite He.
  destruct (isinstance e ConnectionError); cbn [fst snd];
    (split; [reflexivity|]); intros Hv; apply versioned_true in Hv;
    rewrite serve_after_error
      by (assumption || apply quiet_after_post, quiet_fresh);
    eexists; (split; [reflexivity|]).
  - left. reflexivity.
  - right. reflexivity.
Qed.

(** ** [int] reads back what [str] writes *)

Module Decimals.
Import Decimal.

Lemma digits_step c r b acc cnt dv :
  digit_value c = Some dv ->
  digits (String c r) b acc cnt = digits r true (10 * acc + dv) (S cnt).
Proof. intros H. cbn [digits]. rewrite H. reflexivity. Qed.

Ltac digit_step k :=
  match goal with
  | |- context [digits (String ?c ?r) ?b ?acc ?cnt] =>
      rewrite (digits_step c r b acc cnt k eq_refl)
  end.

Ltac digit_case IH k :=
  digit_step k;
  cbn [Pos.of_uint_acc Pos.of_uint nb_digits];
  rewrite <- Nat.add_succ_comm;
  first [ rewrite <- IH; f_equal; lia
        | apply IH ].

Lemma digits_after d acc cnt :
  digits (NilEmpty.string_of_uint d) true (Z.pos acc) cnt =
  Some (Z.pos (Pos.of_uint_acc d acc), (cnt + nb_digits d)%nat).
Proof.
  revert acc cnt.
  induction d; intros acc cnt; cbn [NilEmpty.string_of_uint].
  - cbn. rewrite Nat.add_0_r. reflexivity.
  - digit_case IHd 0.
  - digit_case IHd 1.
  - digit_case IHd 2.
  - digit_case IHd 3.
  - digit_case IHd 4.
  - digit_case IHd 5.
  - digit_case IHd 6.
  - digit_case IHd 7.
  - digit_case IHd 8.
  - digit_case IHd 9.
Qed.

Lemma digits_from_zero d b cnt :
  d <> Nil \/ b = true ->
  digits (NilEmpty.string_of_uint d) b 0 cnt =
  Some (Z.of_N (Pos.of_uint d), (cnt + nb_digits d)%nat).
Proof.
  revert b cnt.
  induction d; intros b cnt Hb; cbn [NilEmpty.string_of_uint].
  - destruct Hb as [Hb | ->]; [congruence|].
    cbn. rewrite Nat.add_0_r. reflexivity.
  - digit_step 0.
    cbn [Pos.of_uint nb_digits]. rewrite <- Nat.add_succ_comm.
    apply IHd. right. reflexivity.
  - digit_step 1.
    cbn [Pos.of_uint nb_digits Z.of_N]. rewrite <- Nat.add_succ_comm.
    apply (digits_after d 1).
  - digit_step 2.
    cbn [Pos.of_uint nb_digits Z.of_N]. rewrite <- Nat.add_succ_comm.
    apply (digits_after d 2).
  - digit_step 3.
    cbn [Pos.of_uint nb_digits Z.of_N]. rewrite <- Nat.add_succ_comm.
    apply (digits_after d 3).
  - digit_step 4.
    cbn [Pos.of_uint nb_digits Z.of_N]. rewrite <- Nat.add_succ_comm.
    apply (digits_after d 4).
  - digit_step 5.
    cbn [Pos.of_uint nb_digits Z.of_N]. rewrite <- Nat.add_succ_comm.
    apply (digits_after d 5).
  - digit_step 6.
    cbn [Pos.of_uint nb_digits Z.of_N]. rewrite <- Nat.add_succ_comm.
    apply (digits_after d 6).
  - digit_step 7.
    cbn [Pos.of_uint nb_digits Z.of_N]. rewrite <- Nat.add_succ_comm.
    apply (digits_after d 7).
  - digit_step 8.
    cbn [Pos.of_uint nb_digits Z.of_N]. rewrite <- Nat.add_succ_comm.
    apply (digits_after d 8).
  - digit_step 9.
    cbn [Pos.of_uint nb_digits Z.of_N]. rewrite <- Nat.add_succ_comm.
    apply (digits_after d 9).
Qed.

Lemma nb_digits_length d :
  nb_digits d = String.length (NilEmpty.string_of_uint d).
Proof. induction d; cbn; congruence. Qed.

Lemma rstrip_cons c r :
  isspace c = false -> rstrip r = r -> rstrip (String c r) = String c r.
Proof.
  intros Hc Hr. cbn [rstrip]. rewrite Hr, Hc. destruct r; reflexivity.
Qed.

Lemma rstrip_digits d :
  rstrip (NilEmpty.string_of_uint d) = NilEmpty.string_of_uint d.
Proof.
  induction d; cbn [NilEmpty.string_of_uint];
    [reflexivity | apply rstrip_cons; [reflexivity | assumption] ..].
Qed.

Lemma strip_digits d :
  strip (NilEmpty.string_of_uint d) = NilEmpty.string_of_uint d.
Proof.
  unfold strip.
  replace (lstrip (NilEmpty.string_of_uint d))
    with (NilEmpty.string_of_uint d) by (destruct d; reflexivity).
  apply rstrip_digits.
Qed.

Lemma strip_minus_digits d :
  strip (String "-" (NilEmpty.string_of_uint d)) =
  String "-" (NilEmpty.string_of_uint d).
Proof.
  unfold strip. change (lstrip (String "-" ?r)) with (String "-" r).
  apply rstrip_cons; [reflexivity | apply rstrip_digits].
Qed.

Lemma limit_allows m k :
  (m = 0 \/ k <= m)%nat -> ((0 <? m) && (m <? k))%nat = false.
Proof.
  intros [-> | H]; [reflexivity|].
  apply andb_false_iff. right. apply Nat.ltb_ge. exact H.
Qed.

Lemma int_unsigned_digits m d :
  d <> Nil ->
  (m = 0 \/ nb_digits d <= m)%nat ->
  int_unsigned m (NilEmpty.string_of_uint d) = Some (Z.of_uint d).
Proof.
  intros Hd Hm.
  pose proof (digits_from_zero d false 0 (or_introl Hd)) as Hdig.
  cbn [Nat.add] in Hdig. apply limit_allows in Hm.
  unfold int_unsigned.
  destruct d; [congruence | ..];
    cbn [NilEmpty.string_of_uint] in *; cbv iota;
    match goal with
    | |- context [digit_value ?c] =>
        let v := eval vm_compute in (digit_value c) in
        change (digit_value c) with v
    end; cbv iota; rewrite Hdig, Hm; reflexivity.
Qed.

Lemma int_str_digits m d :
  d <> Nil ->
  int_str m (NilEmpty.string_of_uint d) =
  int_unsigned m (NilEmpty.string_of_uint d).
Proof.
  intros Hd. unfold int_str. rewrite strip_digits.
  destruct d; [congruence | reflexivity ..].
Qed.

Lemma int_str_minus_digits m d :
  int_str m (String "-" (NilEmpty.string_of_uint d)) =
  option_map Z.opp (int_unsigned m (NilEmpty.string_of_uint d)).
Proof. unfold int_str. rewrite strip_minus_digits. reflexivity. Qed.

Lemma to_uint_not_nil p : Pos.to_uint p <> Nil.
Proof.
  intros H. pose proof (DecimalZ.of_to (Z.pos p)) as Hz.
  cbn [Z.to_int Z.of_int] in Hz. rewrite H in Hz. discriminate.
Qed.

Lemma nil_zero_digits d :
  d <> Nil -> NilZero.string_of_uint d = NilEmpty.string_of_uint d.
Proof. destruct d; [congruence | reflexivity ..]. Qed.

Lemma int_str_of_str_int m z :
  (m = 0 \/ String.length (str_int (Z.abs z)) <= m)%nat ->
  int_str m (str_int z) = Some z.
Proof.
  intros Hm. pose proof (DecimalZ.of_to z) as Hz.
  unfold str_int in *. destruct z as [|p|p]; cbn [Z.abs Z.to_int] in *.
  - change (NilZero.string_of_int (Pos zero))
      with (NilEmpty.string_of_uint (D0 Nil)) in *.
    rewrite <- nb_digits_length in Hm.
    assert (Hd : D0 Nil <> Nil) by discriminate.
    rewrite (int_str_digits m _ Hd), (int_unsigned_digits m _ Hd Hm).
    reflexivity.
  - pose proof (to_uint_not_nil p) as Hd.
    cbn [NilZero.string_of_int Z.of_int] in *.
    rewrite (nil_zero_digits _ Hd) in *.
    rewrite <- nb_digits_length in Hm.
    rewrite (int_str_digits m _ Hd), (int_unsigned_digits m _ Hd Hm).
    congruence.
  - pose proof (to_uint_not_nil p) as Hd.
    cbn [NilZero.string_of_int Z.of_int] in *.
    rewrite (nil_zero_digits _ Hd) in *.
    rewrite <- nb_digits_length in Hm.
    rewrite int_str_minus_digits, (int_unsigned_digits m _ Hd Hm).
    cbn [option_map]. congruence.
Qed.

End Decimals.

(** X21.  [int] reads back what [str] writes: for every integer whose
    decimal has no more digits than the interpreter's limit (or with the
    limit off), [int(str(z)) = z]. *)
Theorem int_reads_back_str m z :
  (m = 0 \/ String.length (str_int (Z.abs z)) <= m)%nat ->
  int_str m (str_int z) = Some z.
Proof. exact (Decimals.int_str_of_str_int m z). Qed.


(** * Where the code departs from the wording *)

(** Against C1 as worded: a POST to [/api/track-order] sent as HTTP/0.9
    reaches the backend, the backend answers 200, and the client gets the
    bytes of the answer alone: no status, no [Content-Type], no CORS
    field. *)
Lemma http09_post_is_relayed_without_status :
  reaches_backend (Demo.env Demo.backend_ok)
    (Demo.http09 (Demo.track_order [("Content-Length", "2")]))
    Demo.order "2" 2 /\
  requests_post (Demo.env Demo.backend_ok) (proxy_call 2 Demo.order)
    = Returns (mkUpstream 200 [("Content-Type", "application/json")]
                          Demo.ok_body) /\
  wfile (snd (handle (Demo.env Demo.backend_ok)
                (Demo.http09 (Demo.track_order [("Content-Length", "2")]))
                Demo.order))
    = [Data Demo.ok_body] /\
  serve (Demo.env Demo.backend_ok)
        (Demo.http09 (Demo.track_order [("Content-Length", "2")]))
        Demo.order
    = None.
Proof.
  split; [repeat split; vm_compute; reflexivity|].
  split; [reflexivity|]. split; vm_compute; reflexivity.
Qed.



(** Against C4 as worded: the fields of a preflight reply are not exactly
    the three CORS fields ([Server] is one of them); and an OPTIONS
    request sent as HTTP/0.9 gets nothing at all. *)
Lemma preflight_has_more_headers :
  (~ exists r,
       serve (Demo.env Demo.backend_down) (Demo.options "/api/track-order") []
         = Some r /\
       status r = 200 /\ body r = [] /\ exactly_preflight_headers r) /\
  wfile (snd (handle (Demo.env Demo.backend_down)
                (Demo.http09 (Demo.options "/api/track-order")) [])) = [].
Proof.
  split; [|vm_compute; reflexivity].
  intros (r & Hs & _ & _ & Hx). vm_compute in Hs. inversion Hs; subst r.
  destruct (Hx ("Server", "SimpleHTTP/0.6 Python/3.11.2")) as [H _].
  cbn in H. specialize (H (or_introl eq_refl)).
  vm_compute in H.
  repeat (destruct H as [H|H]; [discriminate|]). contradiction.
Qed.


(** Against C6 as worded: the client declares [text/plain] and the
    backend [text/html]; the call and the reply both say
    [application/json]. *)
Lemma content_type_is_not_passed_on :
  ~ forwards_content_type (Demo.env Demo.backend_html)
      (Demo.track_order [("Content-Length", "2"); ("Content-Type", "text/plain")])
      Demo.order /\
  ~ relays_content_type (Demo.env Demo.backend_html)
      (Demo.track_order [("Content-Length", "2"); ("Content-Type", "text/plain")])
      Demo.order
      (mkUpstream 200 [("Content-Type", "text/html")] (encode "<p>ok</p>")).
Proof.
  split.
  - intros H.
    specialize (H (proxy_call 2 Demo.order)).
    assert (Hin : In (proxy_call 2 Demo.order)
              (posted (snd (handle (Demo.env Demo.backend_html)
                 (Demo.track_order [("Content-Length", "2"); ("Content-Type", "text/plain")])
                 Demo.order)))).
    { vm_compute. left. reflexivity. }
    specialize (H Hin). vm_compute in H. discriminate.
  - intros (r & Hs & Hct). vm_compute in Hs. inversion Hs; subst r.
    vm_compute in Hct. discriminate.
Qed.

(** Against C7 as worded: a POST to another path sent as HTTP/0.9 gets
    the error page alone, without the status 404. *)
Lemma http09_post_elsewhere_has_no_status :
  wfile (snd (handle (Demo.env Demo.backend_down)
                (Demo.http09 (Demo.post "/api/orders" [])) Demo.order))
    = [Data (error_page (Demo.env Demo.backend_down) 404
               "API endpoint not found")] /\
  ~ exists r,
      serve (Demo.env Demo.backend_down)
            (Demo.http09 (Demo.post "/api/orders" [])) Demo.order = Some r /\
      status r = 404.
Proof.
  split; [vm_compute; reflexivity|].
  intros (r & Hs & _). vm_compute in Hs. discriminate.
Qed.


(** Against C9 as worded: with the port taken ([errno] 48) the message is
    printed and the exit status is 0. *)
Lemma bind_failure_exits_zero :
  isinstance (Demo.addr_in_use 48) OSError = true /\
  run_main (mkStartup None (Some (Demo.addr_in_use 48))
                      (mkExn KeyboardInterrupt None ""))
  = (0, ["❌ Port 8080 is already in use. Try a different port."]) /\
  ~ fst (run_main (mkStartup None (Some (Demo.addr_in_use 48))
                             (mkExn KeyboardInterrupt None ""))) <> 0.
Proof.
  split; [reflexivity|]. split; [reflexivity|].
  intros H. apply H. reflexivity.
Qed.

(** Against C10 as worded: a POST to [/api/track-order] without a usable
    [Content-Length], sent as HTTP/0.9, gets the error page alone,
    without the status 500.  And a [Content-Length] that is no plain
    decimal, such as [+1_0], is one [int] accepts: the request is relayed
    and the reply is the backend's. *)
Lemma http09_bad_length_has_no_status :
  (bad_content_length (Demo.env Demo.backend_ok)
     (Demo.http09 (Demo.track_order [("Content-Length", "two")])) /\
   wfile (snd (handle (Demo.env Demo.backend_ok)
                 (Demo.http09 (Demo.track_order [("Content-Length", "two")]))
                 Demo.order))
     = [Data (error_page (Demo.env Demo.backend_ok) 500
                "Internal server error")] /\
   ~ exists r,
       serve (Demo.env Demo.backend_ok)
             (Demo.http09 (Demo.track_order [("Content-Length", "two")]))
             Demo.order = Some r /\
       status r = 500) /\
  (int_str 4300 "+1_0" = Some 10 /\
   option_map status
     (serve (Demo.env Demo.backend_ok)
            (Demo.track_order [("Content-Length", "+1_0")])
            (encode "0123456789"))
     = Some 200).
Proof.
  split; [|split; vm_compute; reflexivity].
  split; [right; exists "two"; split; reflexivity|].
  split; [vm_compute; reflexivity|].
  intros (r & Hs & _). vm_compute in Hs. discriminate.
Qed.

(** * The theorems at concrete requests *)

Lemma reaches_backend_order backend hs :
  Message.get "Content-Length" hs = Some "2" ->
  reaches_backend (Demo.env backend) (Demo.track_order hs) Demo.order "2" 2.
Proof. intros H. split; [exact H|]. split; reflexivity. Qed.

Lemma proxy_relays_upstream_response_witness :
  exists r,
    serve (Demo.env Demo.backend_ok)
          (Demo.track_order [("Content-Length", "2")]) Demo.order = Some r /\
    status r = 200 /\
    body r = Demo.ok_body /\
    In json_content_type (response_headers r) /\
    In cors_origin (response_headers r) /\
    In cors_methods (response_headers r) /\
    In cors_allow_headers (response_headers r).
Proof.
  apply (proxy_relays_upstream_response
           (Demo.env Demo.backend_ok)
           (Demo.track_order [("Content-Length", "2")]) Demo.order "2" 2
           (mkUpstream 200 [("Content-Type", "application/json")]
                       Demo.ok_body)).
  - reflexivity.
  - reflexivity.
  - discriminate.
  - apply reaches_backend_order. reflexivity.
  - reflexivity.
Defined.



Lemma options_preflight_witness :
  exists r,
    serve (Demo.env Demo.backend_down) (Demo.options "/api/track-order") []
      = Some r /\
    status r = 200 /\
    body r = [] /\
    In cors_origin (response_headers r) /\
    In cors_methods (response_headers r) /\
    In cors_allow_headers (response_headers r) /\
    forall k v, In (k, v) (response_headers r) ->
      In (k, v) [cors_origin; cors_methods; cors_allow_headers] \/
      k = "Server" \/ k = "Date".
Proof.
  apply (options_preflight (Demo.env Demo.backend_down)
           (Demo.options "/api/track-order") []).
  - reflexivity.
  - discriminate.
Defined.


Lemma proxy_forwards_as_json_witness :
  posted (snd (handle (Demo.env Demo.backend_html)
                 (Demo.track_order
                    [("Content-Length", "2"); ("Content-Type", "text/plain")])
                 Demo.order))
  = [proxy_call 2 Demo.order].
Proof.
  apply (proxy_forwards_as_json (Demo.env Demo.backend_html)
           (Demo.track_order
              [("Content-Length", "2"); ("Content-Type", "text/plain")])
           Demo.order "2" 2).
  - reflexivity.
  - reflexivity.
  - apply reaches_backend_order. reflexivity.
Defined.

Lemma post_elsewhere_not_found_witness :
  serve (Demo.env Demo.backend_down) (Demo.post "/api/orders" []) Demo.order
  = Some (error_response (Demo.env Demo.backend_down) 404
            "API endpoint not found") /\
  posted (snd (handle (Demo.env Demo.backend_down)
                 (Demo.post "/api/orders" []) Demo.order)) = [].
Proof.
  destruct (post_elsewhere_not_found (Demo.env Demo.backend_down)
              (Demo.post "/api/orders" []) Demo.order)
    as (_ & Hp & _ & _ & Hs).
  - reflexivity.
  - discriminate.
  - split; [apply Hs; discriminate | exact Hp].
Defined.

(** [Content-Length] is the unit separator (31) followed by [2]: [int]
    does not take the separator for white space. *)
Lemma bad_content_length_500_witness :
  serve (Demo.env Demo.backend_ok)
        (Demo.track_order [("Content-Length", String "031" "2")]) Demo.order
  = Some (error_response (Demo.env Demo.backend_ok) 500
            "Internal server error") /\
  posted (snd (handle (Demo.env Demo.backend_ok)
                 (Demo.track_order [("Content-Length", String "031" "2")])
                 Demo.order))
  = [].
Proof.
  destruct (bad_content_length_500 (Demo.env Demo.backend_ok)
              (Demo.track_order [("Content-Length", String "031" "2")])
              Demo.order) as (_ & Hp & _ & _ & Hs).
  - reflexivity.
  - reflexivity.
  - right. exists (String "031" "2"). split; reflexivity.
  - split; [apply Hs; discriminate | exact Hp].
Defined.


Lemma bind_failure_is_reported_witness :
  run_main (mkStartup None (Some (Demo.addr_in_use 98))
                      (mkExn KeyboardInterrupt None "")) =
  (0, ["❌ Server error: [Errno 98] Address already in use"]).
Proof.
  apply (bind_failure_is_reported
           (mkStartup None (Some (Demo.addr_in_use 98))
                      (mkExn KeyboardInterrupt None ""))
           (Demo.addr_in_use 98)); reflexivity.
Defined.

Lemma only_the_proxy_reaches_out_witness :
  rfile (snd (handle (Demo.env Demo.backend_ok)
                (Demo.get "/index.html" []) Demo.order)) = Demo.order /\
  stdout (snd (handle (Demo.env Demo.backend_ok)
                 (Demo.get "/index.html" []) Demo.order)) = [] /\
  posted (snd (handle (Demo.env Demo.backend_ok)
                 (Demo.get "/index.html" []) Demo.order)) = [].
Proof.
  apply (only_the_proxy_reaches_out (Demo.env Demo.backend_ok)
           (Demo.get "/index.html" []) Demo.order).
  left. discriminate.
Defined.

Lemma declared_length_is_body_length_witness :
  "37" = str_int (Z.of_nat (List.length (file_content Demo.index_html))).
Proof.
  apply (declared_length_is_body_length (Demo.env Demo.backend_ok)
           (Demo.get "/index.html" []) []
           (mkResponse 200 "OK"
              [("Server", "SimpleHTTP/0.6 Python/3.11.2");
               ("Date", "Tue, 03 Nov 2026 12:00:00 GMT");
               ("Content-type", "text/html"); ("Content-Length", "37");
               ("Last-Modified", "Mon, 01 Jan 2024 00:00:00 GMT");
               ("Access-Control-Allow-Origin", "*")]
              (file_content Demo.index_html))
           "37").
  - discriminate.
  - vm_compute. reflexivity.
  - reflexivity.
Defined.


Lemma unsupported_method_not_implemented_witness :
  serve Site.env (Site.put "/api/track-order") Demo.order =
    Some (error_response Site.env 501 "Unsupported method ('PUT')").
Proof.
  destruct (unsupported_method_not_implemented Site.env
              (Site.put "/api/track-order") Demo.order) as (_ & _ & H);
    try discriminate.
  apply H. discriminate.
Defined.

Lemma preflight_sends_origin_twice_witness :
  exists r,
    serve Site.env (Demo.options "/api/track-order") [] = Some r /\
    origin_count r = 2%nat.
Proof.
  apply (preflight_sends_origin_twice Site.env
           (Demo.options "/api/track-order") []).
  - reflexivity.
  - discriminate.
Defined.

Lemma proxy_origin_count_witness :
  exists r,
    serve (Demo.env Demo.backend_ok)
          (Demo.track_order [("Content-Length", "2")]) Demo.order = Some r /\
    status r = 200 /\ origin_count r = 2%nat.
Proof.
  destruct (proxy_origin_count (Demo.env Demo.backend_ok)
              (Demo.track_order [("Content-Length", "2")]) Demo.order "2" 2)
    as (H & _).
  - reflexivity.
  - reflexivity.
  - discriminate.
  - apply reaches_backend_order. reflexivity.
  - apply (H (mkUpstream 200 [("Content-Type", "application/json")]
                         Demo.ok_body)).
    reflexivity.
Defined.


Lemma directory_without_slash_redirects_witness :
  exists r,
    serve Site.env (Demo.get "/assets" []) [] = Some r /\
    status r = 301 /\
    Message.get "Location" (response_headers r) = Some "/assets/" /\
    Message.get "Content-Length" (response_headers r) = Some "0" /\
    body r = [].
Proof.
  apply (directory_without_slash_redirects Site.env
           (Demo.get "/assets" []) []); try reflexivity.
  discriminate.
Defined.

Lemma directory_serves_its_index_witness :
  exists r,
    serve Site.env (Demo.get "/" []) [] = Some r /\
    status r = 200 /\ body r = file_content Demo.index_html.
Proof.
  destruct (directory_serves_its_index Site.env (Demo.get "/" []) [])
    as (H & _); try reflexivity.
  - discriminate.
  - apply (H Demo.index_html); reflexivity.
Defined.

Lemma directory_without_index_is_listed_witness :
  exists r,
    serve Site.env (Demo.get "/assets/" []) [] = Some r /\
    status r = 200 /\ body r = Site.assets_page.
Proof.
  apply (directory_without_index_is_listed Site.env
           (Demo.get "/assets/" []) []); try reflexivity.
  discriminate.
Defined.

Lemma interrupted_server_stops_cleanly_witness :
  run_main (mkStartup None None (mkExn KeyboardInterrupt None "")) =
  (0, (banner ++ [stopped_line])%list).
Proof.
  apply (interrupted_server_stops_cleanly
           (mkStartup None None (mkExn KeyboardInterrupt None "")));
    reflexivity.
Defined.


Lemma unreadable_length_is_refused_witness :
  fst (handle (Demo.env Demo.backend_ok)
         (Demo.track_order [("Content-Length", "-2")]) Demo.order)
    = Returns tt /\
  posted (snd (handle (Demo.env Demo.backend_ok)
                 (Demo.track_order [("Content-Length", "-2")]) Demo.order))
    = [] /\
  rfile (snd (handle (Demo.env Demo.backend_ok)
                (Demo.track_order [("Content-Length", "-2")]) Demo.order))
    = Demo.order /\
  serve (Demo.env Demo.backend_ok)
        (Demo.track_order [("Content-Length", "-2")]) Demo.order
    = Some (error_response (Demo.env Demo.backend_ok) 500
              "Internal server error").
Proof.
  destruct (unreadable_length_is_refused (Demo.env Demo.backend_ok)
              (Demo.track_order [("Content-Length", "-2")]) Demo.order
              "-2" (-2)) as (Hf & Hp & Hr & Hs).
  - reflexivity.
  - reflexivity.
  - reflexivity.
  - reflexivity.
  - left. reflexivity.
  - split; [exact Hf|]. split; [exact Hp|]. split; [exact Hr|].
    apply Hs. discriminate.
Defined.

Lemma interrupt_during_the_call_escapes_witness :
  handle (Demo.env (Demo.backend_raises (mkExn KeyboardInterrupt None "")))
         (Demo.track_order [("Content-Length", "2")]) Demo.order =
  (Raises (mkExn KeyboardInterrupt None ""),
   after_post 2 (fresh Demo.order)).
Proof.
  apply (interrupt_during_the_call_escapes
           (Demo.env (Demo.backend_raises (mkExn KeyboardInterrupt None "")))
           (Demo.track_order [("Content-Length", "2")]) Demo.order "2" 2).
  - reflexivity.
  - reflexivity.
  - apply reaches_backend_order. reflexivity.
  - reflexivity.
  - reflexivity.
Defined.

Lemma requests_failures_never_escape_witness :
  fst (handle (Demo.env (Demo.backend_raises Demo.read_timeout))
         (Demo.track_order [("Content-Length", "2")]) Demo.order)
    = Returns tt /\
  exists r,
    serve (Demo.env (Demo.backend_raises Demo.read_timeout))
          (Demo.track_order [("Content-Length", "2")]) Demo.order = Some r /\
    (status r = 503 \/ status r = 500).
Proof.
  destruct (requests_failures_never_escape
              (Demo.env (Demo.backend_raises Demo.read_timeout))
              (Demo.track_order [("Content-Length", "2")]) Demo.order "2" 2
              Demo.read_timeout) as (Hf & Hs).
  - reflexivity.
  - reflexivity.
  - apply reaches_backend_order. reflexivity.
  - reflexivity.
  - reflexivity.
  - split; [exact Hf | apply Hs; discriminate].
Defined.

Lemma int_reads_back_str_witness : int_str 4300 (str_int 1234) = Some 1234.
Proof.
  apply (int_reads_back_str 4300 1234). right. vm_compute.
  repeat constructor.
Defined.

